(** * Project metadata of a Mergin project: the JSON manifest reader

    A shallow embedding of [MerginFile::fromJsonObject],
    [MerginProjectMetadata::fromJson], [MerginProjectMetadata::fromCachedJson]
    and [MerginProjectMetadata::fileInfo] (merginprojectmetadata.cpp), with the
    Qt value types they use, and the properties of the manifest reader that
    follow from that code. *)

From Stdlib Require Import ZArith QArith Ascii String List Lia.
From stdpp Require Import base option strings list gmap.

#[local] Set Warnings "-register-all".
#[local] Close Scope Q_scope.
#[local] Open Scope string_scope.
#[local] Open Scope Z_scope.

(** ** The Qt value types *)

Module Qt.

(** [QString] and [QByteArray]. A [QString] is compared code unit by code
    unit, with no case folding and no normalisation: Leibniz equality. *)
Definition QString := string.
Definition QByteArray := list Byte.byte.

Definition QString_isEmpty (s : QString) : bool :=
  match s with EmptyString => true | String _ _ => false end.

(** [s.startsWith(p)], case sensitive. *)
Fixpoint QString_startsWith (s p : QString) {struct p} : bool :=
  match p, s with
  | EmptyString, _ => true
  | String c p', String d s' => if Ascii.eqb c d then QString_startsWith s' p' else false
  | String _ _, EmptyString => false
  end.

(** [s.mid(position)]: everything from [position] on; the characters
    before [position] are one byte each where the reader uses it, after
    [startsWith( "v" )]. *)
Fixpoint QString_mid (s : QString) (position : nat) {struct position} : QString :=
  match position, s with
  | O, _ => s
  | S n, String _ s' => QString_mid s' n
  | S _, EmptyString => EmptyString
  end.

(** The range of a C++ [int]. *)
Definition INT_MIN : Z := - 2 ^ 31.
Definition INT_MAX : Z := 2 ^ 31 - 1.
Definition fits_int (z : Z) : bool := (INT_MIN <=? z) && (z <=? INT_MAX).

(** *** The characters of a [QString]

    A [QString] is held as the UTF-8 bytes of its text, so equal bytes are
    equal code units. [code_points] gives the characters back; a byte that is
    not part of a UTF-8 sequence stands for U+FFFD. [pending] counts the
    continuation bytes still to come and [acc] holds the bits read so far. *)
Fixpoint code_points_from (pending : nat) (acc : N) (s : string) : list N :=
  match s with
  | EmptyString => match pending with O => [] | S _ => [65533%N] end
  | String c s' =>
      let b := N_of_ascii c in
      match pending with
      | O =>
          if (b <? 128)%N then b :: code_points_from 0 0%N s'
          else if (192 <=? b)%N && (b <? 224)%N then code_points_from 1 (b - 192)%N s'
          else if (224 <=? b)%N && (b <? 240)%N then code_points_from 2 (b - 224)%N s'
          else if (240 <=? b)%N && (b <? 248)%N then code_points_from 3 (b - 240)%N s'
          else 65533%N :: code_points_from 0 0%N s'
      | S pending' =>
          if (128 <=? b)%N && (b <? 192)%N then
            let acc' := (acc * 64 + (b - 128))%N in
            match pending' with
            | O => acc' :: code_points_from 0 0%N s'
            | S _ => code_points_from pending' acc' s'
            end
          else 65533%N :: code_points_from 0 0%N s'
      end
  end.

Definition code_points (s : QString) : list N := code_points_from 0 0%N s.

(** *** [QString::toInt()], base 10

    White space around the number is skipped ([QChar::isSpace]: the space,
    U+0009 to U+000D, U+0085 and the separators of Unicode), one sign is
    accepted (plus, minus, or the minus sign U+2212), at least one decimal
    digit is required and nothing else may follow; a string that is not of
    that form, or whose value does not fit an [int], converts to 0. *)
Definition isSpace (c : N) : bool :=
  (c =? 32)%N || ((9 <=? c)%N && (c <=? 13)%N) || (c =? 133)%N || (c =? 160)%N
  || (c =? 5760)%N || ((8192 <=? c)%N && (c <=? 8202)%N)
  || (c =? 8232)%N || (c =? 8233)%N || (c =? 8239)%N || (c =? 8287)%N || (c =? 12288)%N.

Definition digit_value (c : N) : option Z :=
  if (48 <=? c)%N && (c <=? 57)%N then Some (Z.of_N c - 48) else None.

Fixpoint skip_space (l : list N) : list N :=
  match l with
  | c :: l' => if isSpace c then skip_space l' else l
  | [] => []
  end.

Fixpoint all_space (l : list N) : bool :=
  match l with
  | c :: l' => isSpace c && all_space l'
  | [] => true
  end.

(** Reads the longest run of digits, most significant first. *)
Fixpoint scan_digits (acc : Z) (l : list N) : Z * list N :=
  match l with
  | c :: l' =>
      match digit_value c with
      | Some d => scan_digits (10 * acc + d) l'
      | None => (acc, l)
      end
  | [] => (acc, [])
  end.

Definition scan_sign (l : list N) : bool * list N :=
  match l with
  | c :: l' =>
      if (c =? 45)%N || (c =? 8722)%N then (true, l')
      else if (c =? 43)%N then (false, l')
      else (false, l)
  | [] => (false, [])
  end.

Definition scan_number (s : QString) : option Z :=
  let '(negative, body) := scan_sign (skip_space (code_points s)) in
  match body with
  | c :: _ =>
      match digit_value c with
      | Some _ =>
          let '(magnitude, rest) := scan_digits 0 body in
          if all_space rest
          then Some (if negative then - magnitude else magnitude)
          else None
      | None => None
      end
  | [] => None
  end.

Definition QString_toInt (s : QString) : Z :=
  match scan_number s with
  | Some z => if fits_int z then z else 0
  | None => 0
  end.

(** [QString::number(n)]: the decimal digits of [n], with a minus sign
    when it is negative. [number_digits] writes the digits of a natural
    number from the least significant one, in front of [acc]; a number
    below [2 ^ fuel] has at most [fuel] digits. *)
Definition digit_char (d : Z) : ascii := ascii_of_N (Z.to_N (48 + d)).

Fixpoint number_digits (fuel : nat) (n : Z) (acc : string) : string :=
  let acc' := String (digit_char (n mod 10)) acc in
  match fuel with
  | O => acc'
  | S fuel' => if n <? 10 then acc' else number_digits fuel' (n / 10) acc'
  end.

Definition QString_number (n : Z) : QString :=
  if n <? 0
  then String "-"%char (number_digits (Z.to_nat (Z.log2 (- n))) (- n) EmptyString)
  else number_digits (Z.to_nat (Z.log2 n)) n EmptyString.

(** *** [QDateTime]

    A date-time is either invalid or an instant, kept as the milliseconds
    since the epoch in UTC, together with the time spec it is shown in. *)
Inductive TimeSpec := LocalTime | UTC | OffsetFromUTC | TimeZone.

Inductive QDateTime :=
  | InvalidDateTime
  | DateTime (msecsSinceEpoch : Z) (spec : TimeSpec).

Inductive DateFormat := TextDate | ISODate | ISODateWithMs | RFC2822Date.

(** [QDateTime()] *)
Definition QDateTime_null : QDateTime := InvalidDateTime.

Definition QDateTime_isValid (t : QDateTime) : bool :=
  match t with InvalidDateTime => false | DateTime _ _ => true end.

Definition toMSecsSinceEpoch (t : QDateTime) : option Z :=
  match t with InvalidDateTime => None | DateTime ms _ => Some ms end.

(** [t.toUTC()]: the same instant shown in UTC; an invalid date-time stays
    invalid. *)
Definition toUTC (t : QDateTime) : QDateTime :=
  match t with
  | InvalidDateTime => InvalidDateTime
  | DateTime ms _ => DateTime ms UTC
  end.

(** *** JSON values

    A JSON number is held as the rational it denotes. *)
Inductive QJsonValue :=
  | JNull
  | JBool (b : bool)
  | JDouble (d : Q)
  | JString (s : QString)
  | JArray (a : list QJsonValue)
  | JObject (o : gmap string QJsonValue)
  | JUndefined.

Abbreviation QJsonArray := (list QJsonValue).
Abbreviation QJsonObject := (gmap string QJsonValue).

Inductive QJsonDocument :=
  | DocNull
  | DocArray (a : QJsonArray)
  | DocObject (o : QJsonObject).

Definition isObject (doc : QJsonDocument) : bool :=
  match doc with DocObject _ => true | _ => false end.

(** [doc.object()]: the empty object when the document holds none. *)
Definition object (doc : QJsonDocument) : QJsonObject :=
  match doc with DocObject o => o | _ => ∅ end.

(** [obj.value(key)]: [Undefined] when the key is absent. *)
Definition value (obj : QJsonObject) (key : QString) : QJsonValue :=
  default JUndefined (obj !! key).

Definition isArray (v : QJsonValue) : bool :=
  match v with JArray _ => true | _ => false end.

Definition toArray (v : QJsonValue) : QJsonArray :=
  match v with JArray a => a | _ => [] end.

Definition toObject (v : QJsonValue) : QJsonObject :=
  match v with JObject o => o | _ => ∅ end.

Definition toString (v : QJsonValue) : QString :=
  match v with JString s => s | _ => EmptyString end.

(** [int(dbl)]: truncation toward zero. *)
Definition truncate (d : Q) : Z := Z.quot (Qnum d) (Zpos (Qden d)).

(** [v.toInt()]: the number when it is whole and fits an [int], the
    default value 0 otherwise. *)
Definition toInt (v : QJsonValue) : Z :=
  match v with
  | JDouble d =>
      if fits_int (truncate d) && Qeq_bool (inject_Z (truncate d)) d
      then truncate d
      else 0
  | _ => 0
  end.

End Qt.

Import Qt.

(** ** Effects: debug output and assertions

    A call writes lines to the debug stream ([qDebug() << ...]) and then
    either returns or is stopped by a failed [Q_ASSERT]. A line is kept as
    the list of items streamed into it. *)

Module Run.

Inductive outcome (A : Type) :=
  | Returned (a : A)
  | Aborted (assertion : string).
Arguments Returned {A} a.
Arguments Aborted {A} assertion.

Definition t (A : Type) : Type := list (list QString) * outcome A.

Definition ret {A} (a : A) : t A := ([], Returned a).

Definition bind {A B} (m : t A) (k : A → t B) : t B :=
  match m with
  | (out, Returned a) => let '(out', r) := k a in ((out ++ out')%list, r)
  | (out, Aborted what) => (out, Aborted what)
  end.

Definition qDebug (line : list QString) : t unit := ([line], Returned tt).

Definition returned {A} (m : t A) : option A :=
  match m with (_, Returned a) => Some a | (_, Aborted _) => None end.

Definition debug_output {A} (m : t A) : list (list QString) := fst m.
Definition result {A} (m : t A) : outcome A := snd m.

End Run.

Notation "m ;;; k" := (Run.bind m (fun _ => k))
  (at level 100, right associativity, only parsing).

(** ** What the reader takes from its surroundings

    The Qt parsers it calls, the build mode, and the two initial values that
    the declarations in merginprojectmetadata.h give: that header is not among
    the sources embedded here, so they are parameters.

    [parseDate] is [QDateTime::fromString] on a non-empty string; the
    instant it gives depends on the time zone of the host when the string
    names none. [QJsonDocument_toJson] and [printDate] are the matching
    writers, [QJsonDocument::toJson] and [QDateTime::toString]. *)
Class Env := {
  QJsonDocument_fromJson : QByteArray → QJsonDocument;
  QJsonDocument_toJson : QJsonDocument → QByteArray;
  parseDate : QString → DateFormat → QDateTime;
  printDate : QDateTime → DateFormat → QString;
  QT_NO_DEBUG : bool;
  MerginFile_size_init : Z;
  MerginProjectMetadata_version_init : Z;
}.

(** [Q_ASSERT(cond)]: nothing in a build with [QT_NO_DEBUG], and a fatal
    error when [cond] is false otherwise. *)
Definition Q_ASSERT `{Env} (cond : bool) (text : string) : Run.t unit :=
  if QT_NO_DEBUG || cond then Run.ret tt else ([], Run.Aborted text).

(** [QDateTime::fromString(s, format)]: the null date-time for an empty
    string. *)
Definition QDateTime_fromString `{Env} (s : QString) (format : DateFormat) : QDateTime :=
  if QString_isEmpty s then QDateTime_null else parseDate s format.

(** The files that can be opened for reading, with their contents. *)
Abbreviation FileSystem := (gmap string QByteArray).

(** ** The manifest reader *)

Module MerginFile.

Record t := mk {
  path : QString;
  checksum : QString;
  size : Z;
  mtime : QDateTime;
}.

(** [MerginFile()] *)
Definition init `{Env} : t :=
  {| path := EmptyString; checksum := EmptyString;
     size := MerginFile_size_init; mtime := QDateTime_null |}.

Definition fromJsonObject `{Env} (merginFileInfo : QJsonObject) : t :=
  let merginFile := init in
  {| checksum := toString (value merginFileInfo "checksum");
     path := toString (value merginFileInfo "path");
     size := toInt (value merginFileInfo "size");
     mtime := toUTC (QDateTime_fromString
                       (toString (value merginFileInfo "mtime")) ISODateWithMs) |}.

End MerginFile.

Module MerginProjectMetadata.

Record t := mk {
  name : QString;
  projectNamespace : QString;
  files : list MerginFile.t;
  version : Z;
}.

(** A default-constructed [MerginProjectMetadata]. *)
Definition init `{Env} : t :=
  {| name := EmptyString; projectNamespace := EmptyString;
     files := []; version := MerginProjectMetadata_version_init |}.

Definition set_files (project : t) (v : list MerginFile.t) : t :=
  {| name := name project; projectNamespace := projectNamespace project;
     files := v; version := version project |}.
Definition set_name (project : t) (v : QString) : t :=
  {| name := v; projectNamespace := projectNamespace project;
     files := files project; version := version project |}.
Definition set_projectNamespace (project : t) (v : QString) : t :=
  {| name := name project; projectNamespace := v;
     files := files project; version := version project |}.
Definition set_version (project : t) (v : Z) : t :=
  {| name := name project; projectNamespace := projectNamespace project;
     files := files project; version := v |}.

(** The loop over [vFilesArray]: [project.files << ...] for each element. *)
Fixpoint read_files `{Env} (project : t) (vFilesArray : QJsonArray) : t :=
  match vFilesArray with
  | [] => project
  | it :: rest =>
      read_files
        (set_files project
           (files project ++ [MerginFile.fromJsonObject (toObject it)])%list)
        rest
  end.

Definition fromJson `{Env} (data : QByteArray) : Run.t t :=
  let project := init in
  let doc := QJsonDocument_fromJson data in
  if negb (isObject doc) then
    Run.qDebug ["MerginProjectMetadata::fromJson: invalid content!"] ;;;
    Run.ret project
  else
    let docObj := object doc in
    let vFiles := value docObj "files" in
    Q_ASSERT (isArray vFiles) "vFiles.isArray()" ;;;
    let vFilesArray := toArray vFiles in
    let project := read_files project vFilesArray in
    let project := set_name project (toString (value docObj "name")) in
    let project := set_projectNamespace project (toString (value docObj "namespace")) in
    let versionStr := toString (value docObj "version") in
    let project :=
      if QString_isEmpty versionStr then set_version project 0
      else if QString_startsWith versionStr "v" then
        let versionStr := QString_mid versionStr 1 in
        set_version project (QString_toInt versionStr)
      else project in
    Run.ret project.

Definition fromCachedJson `{Env} (fs : FileSystem) (metadataFilePath : QString) : Run.t t :=
  match fs !! metadataFilePath with
  | Some contents => fromJson contents
  | None => Run.ret init
  end.

(** The scan of [files] in [fileInfo]. *)
Fixpoint find_file (files : list MerginFile.t) (filePath : QString) : option MerginFile.t :=
  match files with
  | [] => None
  | merginFile :: rest =>
      if decide (MerginFile.path merginFile = filePath) then Some merginFile
      else find_file rest filePath
  end.

Definition fileInfo `{Env} (project : t) (filePath : QString) : Run.t MerginFile.t :=
  match find_file (files project) filePath with
  | Some merginFile => Run.ret merginFile
  | None =>
      Run.qDebug ["requested fileInfo() for non-existant file! "; filePath] ;;;
      Run.ret MerginFile.init
  end.

End MerginProjectMetadata.

(** ** The reader, member by member

    The record read from one element of "files", and the version the reader
    leaves in the manifest for a given version string. *)

Abbreviation readFile := (λ it : QJsonValue, MerginFile.fromJsonObject (toObject it)).

Definition read_version `{Env} (versionStr : QString) : Z :=
  if QString_isEmpty versionStr then 0
  else if QString_startsWith versionStr "v" then QString_toInt (QString_mid versionStr 1)
  else MerginProjectMetadata_version_init.

(** ** The writer of the wire format

    Modelled from the spec: the repository has no writer of the manifest (the
    documents come from the server), so [serialize] follows the wire format
    of the spec: an object with the members "name", "namespace", "version"
    (the letter v and the decimal version) and "files", an array of objects
    with the members "path", "checksum", "size" and "mtime" (ISO 8601 with
    milliseconds). A manifest is valid, by the data model of the spec, when
    its version and sizes are not negative and its times are valid UTC
    times. *)

Module Writer.

Definition fileToJson `{Env} (merginFile : MerginFile.t) : QJsonValue :=
  JObject
    (<["path" := JString (MerginFile.path merginFile)]>
    (<["checksum" := JString (MerginFile.checksum merginFile)]>
    (<["size" := JDouble (inject_Z (MerginFile.size merginFile))]>
    (<["mtime" := JString (printDate (MerginFile.mtime merginFile) ISODateWithMs)]> ∅)))).

Definition toJsonDocument `{Env} (project : MerginProjectMetadata.t) : QJsonDocument :=
  DocObject
    (<["name" := JString (MerginProjectMetadata.name project)]>
    (<["namespace" := JString (MerginProjectMetadata.projectNamespace project)]>
    (<["version" := JString ("v" +:+ QString_number (MerginProjectMetadata.version project))]>
    (<["files" := JArray (map fileToJson (MerginProjectMetadata.files project))]> ∅)))).

Definition serialize `{Env} (project : MerginProjectMetadata.t) : QByteArray :=
  QJsonDocument_toJson (toJsonDocument project).

Definition is_utc (t : QDateTime) : bool :=
  match t with DateTime _ UTC => true | _ => false end.

Definition valid_file (merginFile : MerginFile.t) : bool :=
  (0 <=? MerginFile.size merginFile) && is_utc (MerginFile.mtime merginFile).

Definition valid (project : MerginProjectMetadata.t) : bool :=
  (0 <=? MerginProjectMetadata.version project)
  && forallb valid_file (MerginProjectMetadata.files project).

(** The version and every size are at most [INT_MAX]. *)
Definition within_int_file (merginFile : MerginFile.t) : bool :=
  MerginFile.size merginFile <=? INT_MAX.

Definition within_int (project : MerginProjectMetadata.t) : bool :=
  (MerginProjectMetadata.version project <=? INT_MAX)
  && forallb within_int_file (MerginProjectMetadata.files project).

End Writer.

(** ** A sample host

    The manifest of the survey project with one file, a few malformed
    documents, and a host that knows how Qt reads exactly these. *)

Module Sample.

Definition dq : string := String "034"%char EmptyString.
Definition quoted (s : string) : string := dq +:+ s +:+ dq.
Definition field (key val : string) : string := quoted key +:+ ":" +:+ val.

Definition mtime_text : string := "2020-01-01T00:00:00.000Z".
Definition mtime_msecs : Z := 1577836800000.

Definition file_text : string :=
  "{" +:+ field "path" (quoted "data.gpkg") +:+ ","
      +:+ field "checksum" (quoted "abc123") +:+ ","
      +:+ field "size" "2048" +:+ ","
      +:+ field "mtime" (quoted mtime_text) +:+ "}".

Definition survey_text (versionStr : string) : string :=
  "{" +:+ field "name" (quoted "Survey") +:+ ","
      +:+ field "namespace" (quoted "org1") +:+ ","
      +:+ field "version" (quoted versionStr) +:+ ","
      +:+ field "files" ("[" +:+ file_text +:+ "]") +:+ "}".

Definition file_json : QJsonValue :=
  JObject (<["path" := JString "data.gpkg"]>
          (<["checksum" := JString "abc123"]>
          (<["size" := JDouble (inject_Z 2048)]>
          (<["mtime" := JString mtime_text]> ∅)))).

Definition survey_json (versionStr : string) : QJsonObject :=
  <["name" := JString "Survey"]>
  (<["namespace" := JString "org1"]>
  (<["version" := JString versionStr]>
  (<["files" := JArray [file_json]]> ∅))).

(** An object with no "files" member, and one whose files are a number,
    a record with a negative size and a time given with an offset, and a
    record with a size below [INT_MIN] and an unreadable time. *)
Definition nofiles_text : string := "{" +:+ field "name" (quoted "Survey") +:+ "}".
Definition nofiles_json : QJsonObject := <["name" := JString "Survey"]> ∅.

Definition offset_text : string := "2020-01-01T01:00:00.000+01:00".

Definition odd_text : string :=
  "{" +:+ field "files"
            ("[7,{" +:+ field "path" (quoted "a") +:+ "," +:+ field "size" "-5"
                    +:+ "," +:+ field "mtime" (quoted offset_text) +:+ "},{"
                    +:+ field "path" (quoted "b") +:+ "," +:+ field "size" "-2147483649"
                    +:+ "," +:+ field "mtime" (quoted "yesterday") +:+ "}]") +:+ "}".

Definition negative_json : QJsonObject :=
  <["path" := JString "a"]>
  (<["size" := JDouble (inject_Z (-5))]>
  (<["mtime" := JString offset_text]> ∅)).

Definition below_int_json : QJsonObject :=
  <["path" := JString "b"]>
  (<["size" := JDouble (inject_Z (-2147483649))]>
  (<["mtime" := JString "yesterday"]> ∅)).

Definition odd_array : QJsonArray :=
  [ JDouble (inject_Z 7); JObject negative_json; JObject below_int_json ].

Definition odd_json : QJsonObject := <["files" := JArray odd_array]> ∅.

Definition bytes (s : string) : QByteArray := list_byte_of_string s.

Definition table : list (string * QJsonDocument) :=
  [ (survey_text "v3", DocObject (survey_json "v3"));
    (survey_text "v", DocObject (survey_json "v"));
    (survey_text "7", DocObject (survey_json "7"));
    (survey_text "", DocObject (survey_json ""));
    (nofiles_text, DocObject nofiles_json);
    (odd_text, DocObject odd_json);
    ("[]", DocArray []) ].

Fixpoint lookup_text (tbl : list (string * QJsonDocument)) (s : string) : QJsonDocument :=
  match tbl with
  | [] => DocNull
  | (text, doc) :: rest => if String.eqb text s then doc else lookup_text rest s
  end.

Definition env (no_debug : bool) (version_init : Z) : Env :=
  {| QJsonDocument_fromJson data := lookup_text table (string_of_list_byte data);
     QJsonDocument_toJson doc := bytes (survey_text "v3");
     parseDate s format := if String.eqb s mtime_text then DateTime mtime_msecs UTC
                   else if String.eqb s offset_text then DateTime mtime_msecs OffsetFromUTC
                   else InvalidDateTime;
     printDate t format := mtime_text;
     QT_NO_DEBUG := no_debug;
     MerginFile_size_init := 0;
     MerginProjectMetadata_version_init := version_init |}.

(** A build with assertions and one without, both with a header that
    starts the version at -1. *)
Definition debug_build : Env := env false (-1).
Definition release_build : Env := env true (-1).

Definition survey_file : MerginFile.t :=
  {| MerginFile.path := "data.gpkg"; MerginFile.checksum := "abc123";
     MerginFile.size := 2048; MerginFile.mtime := DateTime mtime_msecs UTC |}.

Definition survey : MerginProjectMetadata.t :=
  {| MerginProjectMetadata.name := "Survey";
     MerginProjectMetadata.projectNamespace := "org1";
     MerginProjectMetadata.files := [survey_file];
     MerginProjectMetadata.version := 3 |}.

(** A manifest in which two records have the same path. *)
Definition survey_file_again : MerginFile.t :=
  {| MerginFile.path := "data.gpkg"; MerginFile.checksum := "ffffff";
     MerginFile.size := 1; MerginFile.mtime := InvalidDateTime |}.

Definition photo_file : MerginFile.t :=
  {| MerginFile.path := "photo.jpg"; MerginFile.checksum := "123abc";
     MerginFile.size := 77; MerginFile.mtime := DateTime mtime_msecs UTC |}.

Definition twice : MerginProjectMetadata.t :=
  {| MerginProjectMetadata.name := "Survey";
     MerginProjectMetadata.projectNamespace := "org1";
     MerginProjectMetadata.files := [photo_file; survey_file; survey_file_again];
     MerginProjectMetadata.version := 3 |}.

Definition survey_data : QByteArray := bytes (survey_text "v3").
Definition odd_data : QByteArray := bytes odd_text.

Definition cache : FileSystem := {[ "mergin.json" := survey_data ]}.

End Sample.


(** ** A second sample document

    The survey manifest with members the reader does not know: "tags" in the
    document and "chunks" in the file. *)

Module SampleMore.

Definition tagged_text : string :=
  "{" +:+ Sample.field "name" (Sample.quoted "Survey") +:+ ","
      +:+ Sample.field "namespace" (Sample.quoted "org1") +:+ ","
      +:+ Sample.field "version" (Sample.quoted "v3") +:+ ","
      +:+ Sample.field "tags" "[]" +:+ ","
      +:+ Sample.field "files" ("[" +:+ Sample.file_text +:+ "]") +:+ "}".

Definition tagged_json : QJsonObject := <["tags" := JArray []]> (Sample.survey_json "v3").

Definition chunked_file_json : QJsonObject :=
  <["chunks" := JArray [JString "c1"]]>
  (<["path" := JString "data.gpkg"]>
  (<["checksum" := JString "abc123"]>
  (<["size" := JDouble (inject_Z 2048)]>
  (<["mtime" := JString Sample.mtime_text]> ∅)))).

Definition tagged_data : QByteArray := Sample.bytes tagged_text.

Definition env : Env :=
  {| QJsonDocument_fromJson data :=
       if String.eqb (string_of_list_byte data) tagged_text then DocObject tagged_json
       else @QJsonDocument_fromJson Sample.debug_build data;
     QJsonDocument_toJson := @QJsonDocument_toJson Sample.debug_build;
     parseDate := @parseDate Sample.debug_build;
     printDate := @printDate Sample.debug_build;
     QT_NO_DEBUG := false;
     MerginFile_size_init := 0;
     MerginProjectMetadata_version_init := -1 |}.

Definition two_files : MerginProjectMetadata.t :=
  {| MerginProjectMetadata.name := "Survey";
     MerginProjectMetadata.projectNamespace := "org1";
     MerginProjectMetadata.files := [Sample.photo_file; Sample.survey_file];
     MerginProjectMetadata.version := 3 |}.

End SampleMore.

(** ** A third sample document: a file of 3 000 000 000 bytes *)

Module SampleBig.

Definition big_file : MerginFile.t :=
  {| MerginFile.path := "ortho.tif"; MerginFile.checksum := "d41d8c";
     MerginFile.size := 3000000000; MerginFile.mtime := DateTime Sample.mtime_msecs UTC |}.

Definition big : MerginProjectMetadata.t :=
  {| MerginProjectMetadata.name := "Survey";
     MerginProjectMetadata.projectNamespace := "org1";
     MerginProjectMetadata.files := [big_file];
     MerginProjectMetadata.version := 3 |}.

Definition big_text : string :=
  "{" +:+ Sample.field "name" (Sample.quoted "Survey") +:+ ","
      +:+ Sample.field "namespace" (Sample.quoted "org1") +:+ ","
      +:+ Sample.field "version" (Sample.quoted "v3") +:+ ","
      +:+ Sample.field "files"
            ("[{" +:+ Sample.field "path" (Sample.quoted "ortho.tif") +:+ ","
                  +:+ Sample.field "checksum" (Sample.quoted "d41d8c") +:+ ","
                  +:+ Sample.field "size" "3000000000" +:+ ","
                  +:+ Sample.field "mtime" (Sample.quoted Sample.mtime_text) +:+ "}]")
      +:+ "}".

Definition big_json : QJsonObject :=
  <["name" := JString "Survey"]>
  (<["namespace" := JString "org1"]>
  (<["version" := JString "v3"]>
  (<["files" := JArray
       [JObject (<["path" := JString "ortho.tif"]>
                (<["checksum" := JString "d41d8c"]>
                (<["size" := JDouble (inject_Z 3000000000)]>
                (<["mtime" := JString Sample.mtime_text]> ∅))))]]> ∅))).

(** A host whose JSON writer and reader agree on this document. *)
Definition env : Env :=
  {| QJsonDocument_fromJson data :=
       if String.eqb (string_of_list_byte data) big_text then DocObject big_json
       else DocNull;
     QJsonDocument_toJson doc := Sample.bytes big_text;
     parseDate := @parseDate Sample.debug_build;
     printDate := @printDate Sample.debug_build;
     QT_NO_DEBUG := false;
     MerginFile_size_init := 0;
     MerginProjectMetadata_version_init := -1 |}.

End SampleBig.

(** ** The list model of the map themes (mapthemesmodel.cpp)

    The model holds a pointer to the project, the names of the map themes and
    the index of the active theme. A method returns the signals it emits and
    the calls it makes on the project, in order, with the new state of the
    model. A call that C++ leaves undefined, [QList::at] with an index out of
    range or the use of a null [mProject], is [Run.Aborted]: nothing is
    promised after it.

    The role [Name] and the initial [mActiveThemeIndex] are fixed by
    mapthemesmodel.h, which is not among the sources embedded here: they are
    parameters. *)

Class ThemesHeader := {
  Name : Z;
  mActiveThemeIndex_init : Z;
}.

Module MapThemesModel.

(** What the model reads of a [QgsProject]: the names in its map theme
    collection, as they are when the method is called. *)
Record QgsProject := { mapThemeCollection_mapThemes : list QString }.

Inductive event :=
  | qDebug (line : list QString)
  | beginResetModel
  | endResetModel
  | mapThemesReloaded
  | activeThemeIndexChanged
  | mapThemeChanged (name : QString)
  | collection_applyTheme (name : QString).

Record t := mk {
  mProject : option QgsProject;
  mMapThemes : list QString;
  mActiveThemeIndex : Z;
}.

Inductive QVariant :=
  | QVariant_invalid
  | QVariant_string (s : QString).

Record QModelIndex := createIndex { row : Z; column : Z }.

(** [l.count()], [l.at(i)] and [l.indexOf(x)] of a [QList<QString>]. *)
Definition count (l : list QString) : Z := Z.of_nat (length l).

Definition QList_at (l : list QString) (i : Z) : Run.outcome QString :=
  if (0 <=? i) && (i <? count l) then
    match l !! Z.to_nat i with
    | Some x => Run.Returned x
    | None => Run.Aborted "QList::at: index out of range"
    end
  else Run.Aborted "QList::at: index out of range".

Fixpoint indexOf_from (l : list QString) (x : QString) (from : Z) : Z :=
  match l with
  | [] => -1
  | y :: rest => if decide (y = x) then from else indexOf_from rest x (from + 1)
  end.

Definition QList_indexOf (l : list QString) (x : QString) : Z := indexOf_from l x 0.

(** The loop of [reloadMapThemes] over the themes of the collection. *)
Fixpoint collect_themes (names allThemes : list QString) : list event * list QString :=
  match names with
  | [] => ([], allThemes)
  | name :: rest =>
      let '(out, allThemes') := collect_themes rest (allThemes ++ [name])%list in
      (qDebug ["Found map theme: "; name] :: out, allThemes')
  end.

Definition reloadMapThemes (self : t) : list event * t :=
  match mProject self with
  | None => ([], self)
  | Some project =>
      let '(out, allThemes) := collect_themes (mapThemeCollection_mapThemes project) [] in
      if decide (mMapThemes self ≠ allThemes) then
        ((out ++ [beginResetModel; endResetModel; mapThemesReloaded])%list,
         {| mProject := mProject self; mMapThemes := allThemes;
            mActiveThemeIndex := mActiveThemeIndex self |})
      else (out, self)
  end.

(** The constructor. *)
Definition new `{ThemesHeader} (project : option QgsProject) : list event * t :=
  reloadMapThemes
    {| mProject := project; mMapThemes := []; mActiveThemeIndex := mActiveThemeIndex_init |}.

Definition activeThemeIndex (self : t) : Z := mActiveThemeIndex self.

Definition applyTheme (self : t) (name : QString) : list event * Run.outcome t :=
  match mProject self with
  | None => ([], Run.Aborted "mProject is null")
  | Some _ => ([collection_applyTheme name; mapThemeChanged name], Run.Returned self)
  end.

Definition setActiveThemeIndex (self : t) (activeThemeIndex : Z) : list event * Run.outcome t :=
  let self := {| mProject := mProject self; mMapThemes := mMapThemes self;
                 mActiveThemeIndex := activeThemeIndex |} in
  match QList_at (mMapThemes self) activeThemeIndex with
  | Run.Aborted what => ([], Run.Aborted what)
  | Run.Returned name =>
      match applyTheme self name with
      | (out, Run.Returned self) => ((out ++ [activeThemeIndexChanged])%list, Run.Returned self)
      | (out, Run.Aborted what) => (out, Run.Aborted what)
      end
  end.

Definition rowAccordingName (self : t) (name : QString) (defaultIndex : Z) : Z :=
  let index := QList_indexOf (mMapThemes self) name in
  if index <? 0 then defaultIndex else index.

Definition updateMapTheme (self : t) (name : QString) : list event * Run.outcome t :=
  let row := rowAccordingName self name 0 in
  if row >=? 0 then setActiveThemeIndex self row else ([], Run.Returned self).

Definition data `{ThemesHeader} (self : t) (index : QModelIndex) (role : Z) : Run.outcome QVariant :=
  let row := row index in
  if (row <? 0) || (row >=? count (mMapThemes self)) then Run.Returned QVariant_invalid
  else if decide (role = Name) then
    match QList_at (mMapThemes self) row with
    | Run.Returned name => Run.Returned (QVariant_string name)
    | Run.Aborted what => Run.Aborted what
    end
  else Run.Returned QVariant_invalid.

(** [QAbstractListModel::roleNames()] *)
Definition QAbstractListModel_roleNames : gmap Z string :=
  <[0 := "display"]> (<[1 := "decoration"]> (<[2 := "edit"]>
  (<[3 := "toolTip"]> (<[4 := "statusTip"]> (<[5 := "whatsThis"]> ∅))))).

Definition roleNames `{ThemesHeader} (self : t) : gmap Z string :=
  let roleNames := QAbstractListModel_roleNames in
  <[Name := "name"]> roleNames.

Definition index (self : t) (row column : Z) (parent : QModelIndex) : QModelIndex :=
  createIndex row 0.

Definition rowCount (self : t) (parent : QModelIndex) : Z := count (mMapThemes self).

Definition mapThemes (self : t) : list QString := mMapThemes self.

Definition setMapThemes (self : t) (mapThemes : list QString) : list event * t :=
  if decide (mMapThemes self = mapThemes) then ([], self)
  else ([mapThemesReloaded],
        {| mProject := mProject self; mMapThemes := mapThemes;
           mActiveThemeIndex := mActiveThemeIndex self |}).

(** The root index, the parent of every row of a list model. *)
Definition QModelIndex_invalid : QModelIndex := createIndex (-1) (-1).

(** A model of three themes, one name twice, over a project. *)
Definition sample_header : ThemesHeader := {| Name := 257; mActiveThemeIndex_init := -1 |}.

Definition sample_project : QgsProject :=
  {| mapThemeCollection_mapThemes := ["day"; "night"; "day"] |}.

Definition sample : t :=
  {| mProject := Some sample_project; mMapThemes := ["day"; "night"; "day"];
     mActiveThemeIndex := -1 |}.

End MapThemesModel.

(** ** The handler of attached images (the external resource bundle)

    The handler keeps a reference to the editor widget it works for; the
    widgets are objects shared with the form, so they live in a store and the
    handler holds the identity of one. The dialog that asks whether the image
    file is to be deleted keeps the path asked about. A method returns the
    signals sent to widgets and the calls made on the platform, in order,
    with the state it leaves. The use of a widget that is not in the store,
    or of the handler's widget before it is set, raises a [TypeError]: the
    method stops there, what it did before stays done, and the methods called
    later run as usual. *)

Module ExternalResourceBundle.

Record Widget := mkWidget {
  sourceToDelete : string;
  targetDir : string;
}.

Inductive event :=
  | valueChanged (widget : nat) (value : string) (isNull : bool)
  | removeFile (path : string)
  | callImagePicker
  | showImagePicker (targetDir : string)
  | fileDialog_open
  | typeError.

Record t := mk {
  itemWidget : option nat;
  widgets : gmap nat Widget;
  imageDeleteDialog_imagePath : string;
  imageDeleteDialog_visible : bool;
}.

(** [widget.sourceToDelete = path] on a widget [w] of the store. *)
Definition set_sourceToDelete (self : t) (widget : nat) (w : Widget) (path : string) : t :=
  {| itemWidget := itemWidget self;
     widgets := <[widget := {| sourceToDelete := path; targetDir := targetDir w |}]>
                  (widgets self);
     imageDeleteDialog_imagePath := imageDeleteDialog_imagePath self;
     imageDeleteDialog_visible := imageDeleteDialog_visible self |}.

(** [chooseImage(itemWidget)], on a platform that is Android, iOS or
    neither. *)
Definition chooseImage (isAndroid isIos : bool) (self : t) (widget : nat) : list event * t :=
  let self := {| itemWidget := Some widget; widgets := widgets self;
                 imageDeleteDialog_imagePath := imageDeleteDialog_imagePath self;
                 imageDeleteDialog_visible := imageDeleteDialog_visible self |} in
  if isAndroid then ([callImagePicker], self)
  else if isIos then
    match widgets self !! widget with
    | None => ([typeError], self)
    | Some w => ([showImagePicker (targetDir w)], self)
    end
  else ([fileDialog_open], self).

(** [removeImage(itemWidget, imagePath)]; [fileExists] is what
    [QgsQuick.Utils.fileExists(imagePath)] answers when it is called. *)
Definition removeImage (fileExists : bool) (self : t) (widget : nat) (imagePath : string)
  : list event * t :=
  if fileExists then
    ([], {| itemWidget := Some widget; widgets := widgets self;
            imageDeleteDialog_imagePath := imagePath;
            imageDeleteDialog_visible := true |})
  else
    match widgets self !! widget with
    | None => ([typeError], self)
    | Some _ => ([valueChanged widget "" false], self)
    end.

(** The widget the handler holds, when it is set and in the store. *)
Definition held (self : t) : option (nat * Widget) :=
  match itemWidget self with
  | None => None
  | Some widget =>
      match widgets self !! widget with
      | None => None
      | Some w => Some (widget, w)
      end
  end.

(** The answers of the dialog. *)
Definition onYes (self : t) : list event * t :=
  match held self with
  | None => ([typeError], self)
  | Some (widget, w) =>
      let self := set_sourceToDelete self widget w (imageDeleteDialog_imagePath self) in
      ([valueChanged widget "" false],
       {| itemWidget := itemWidget self; widgets := widgets self;
          imageDeleteDialog_imagePath := imageDeleteDialog_imagePath self;
          imageDeleteDialog_visible := false |})
  end.

Definition onNo (self : t) : list event * t :=
  match held self with
  | None => ([typeError], self)
  | Some (widget, _) => ([valueChanged widget "" false], self)
  end.

Definition onRejected (self : t) : list event * t :=
  ([], {| itemWidget := itemWidget self; widgets := widgets self;
          imageDeleteDialog_imagePath := imageDeleteDialog_imagePath self;
          imageDeleteDialog_visible := false |}).

Definition onFormSave (self : t) (widget : nat) : list event * t :=
  match widgets self !! widget with
  | None => ([typeError], self)
  | Some w => ([removeFile (sourceToDelete w)], set_sourceToDelete self widget w "")
  end.

Definition onFormCancel (self : t) (widget : nat) : list event * t :=
  match widgets self !! widget with
  | None => ([typeError], self)
  | Some w => ([], set_sourceToDelete self widget w "")
  end.

(** What the form and the user do, one after the other. *)
Inductive action :=
  | ChooseImage (isAndroid isIos : bool) (widget : nat)
  | RemoveImage (fileExists : bool) (widget : nat) (imagePath : string)
  | Yes
  | No
  | Rejected
  | FormSave (widget : nat)
  | FormCancel (widget : nat).

Definition step (self : t) (a : action) : list event * t :=
  match a with
  | ChooseImage isAndroid isIos widget => chooseImage isAndroid isIos self widget
  | RemoveImage fileExists widget imagePath => removeImage fileExists self widget imagePath
  | Yes => onYes self
  | No => onNo self
  | Rejected => onRejected self
  | FormSave widget => onFormSave self widget
  | FormCancel widget => onFormCancel self widget
  end.

Fixpoint run (self : t) (actions : list action) : list event * t :=
  match actions with
  | [] => ([], self)
  | a :: rest =>
      let '(out, self') := step self a in
      let '(out', final) := run self' rest in
      ((out ++ out')%list, final)
  end.

(** The paths some widget holds for deletion. *)
Definition pending (self : t) (p : string) : Prop :=
  ∃ widget w, widgets self !! widget = Some w ∧ sourceToDelete w = p.

(** The path the dialog asks about after some actions, when it asked about
    [asked] before them: the path of the last [removeImage] for a file that
    exists. *)
Definition asked_after (asked : string) (a : action) : string :=
  match a with
  | RemoveImage true _ imagePath => imagePath
  | _ => asked
  end.

Definition asked_path (asked : string) (actions : list action) : string :=
  fold_left asked_after actions asked.

(** A form with two image fields, nothing asked yet. *)
Definition sample : t :=
  {| itemWidget := None;
     widgets := <[1%nat := {| sourceToDelete := ""; targetDir := "/p/photos" |}]>
                (<[2%nat := {| sourceToDelete := ""; targetDir := "/p/photos" |}]> ∅);
     imageDeleteDialog_imagePath := "";
     imageDeleteDialog_visible := false |}.

End ExternalResourceBundle.

(** ** Facts about the Qt value types *)

Section DecimalNumbers.

Ltac mod10_range :=
  match goal with
  | |- 0 <= ?n mod 10 <= 9 => pose proof (Z.mod_pos_bound n 10 ltac:(lia)); lia
  end.

Ltac digit_cases d Hd :=
  let Hcases := fresh "Hcases" in
  assert (d = 0 ∨ d = 1 ∨ d = 2 ∨ d = 3 ∨ d = 4 ∨ d = 5 ∨ d = 6 ∨ d = 7 ∨ d = 8 ∨ d = 9)
    as Hcases by lia;
  repeat (destruct Hcases as [-> | Hcases]; [reflexivity |]);
  subst d; reflexivity.

Lemma digit_value_char (d : Z) :
  0 <= d <= 9 → digit_value (N_of_ascii (digit_char d)) = Some d.
Proof. intros Hd. digit_cases d Hd. Qed.

(** A digit is one byte, and neither white space nor a sign, so the scanner
    starts reading the number at once. *)
Lemma code_points_digit (d : Z) (r : string) :
  0 <= d <= 9 →
  code_points (String (digit_char d) r) = N_of_ascii (digit_char d) :: code_points r.
Proof.
  intros Hd. unfold code_points. cbn [code_points_from].
  assert ((N_of_ascii (digit_char d) <? 128)%N = true) as -> by digit_cases d Hd.
  reflexivity.
Qed.

Lemma skip_space_digit (d : Z) (l : list N) :
  0 <= d <= 9 →
  skip_space (N_of_ascii (digit_char d) :: l) = N_of_ascii (digit_char d) :: l.
Proof.
  intros Hd. cbn [skip_space].
  assert (isSpace (N_of_ascii (digit_char d)) = false) as -> by digit_cases d Hd.
  reflexivity.
Qed.

Lemma scan_sign_digit (d : Z) (l : list N) :
  0 <= d <= 9 →
  scan_sign (N_of_ascii (digit_char d) :: l) = (false, N_of_ascii (digit_char d) :: l).
Proof.
  intros Hd. unfold scan_sign.
  assert (((N_of_ascii (digit_char d) =? 45)%N || (N_of_ascii (digit_char d) =? 8722)%N)
          = false) as -> by digit_cases d Hd.
  assert ((N_of_ascii (digit_char d) =? 43)%N = false) as -> by digit_cases d Hd.
  reflexivity.
Qed.

Lemma number_digits_head (fuel : nat) (n : Z) (acc : string) :
  0 <= n →
  ∃ d r, 0 <= d <= 9 ∧ number_digits fuel n acc = String (digit_char d) r.
Proof.
  revert n acc. induction fuel as [| fuel IH]; intros n acc Hn; cbn [number_digits].
  - exists (n mod 10), acc. split; [mod10_range | reflexivity].
  - destruct (n <? 10) eqn:Hlt.
    + exists (n mod 10), acc. split; [mod10_range | reflexivity].
    + apply IH. apply Z.div_pos; lia.
Qed.

(** Reading back the digits of [n] appends them to what was read before. *)
Lemma scan_number_digits (fuel : nat) (n : Z) (acc : string) (before : Z) :
  0 <= n < 2 ^ Z.of_nat (S fuel) →
  ∃ k, scan_digits before (code_points (number_digits fuel n acc))
       = scan_digits (before * 10 ^ Z.of_nat k + n) (code_points acc).
Proof.
  revert n acc. induction fuel as [| fuel IH]; intros n acc Hn.
  - exists 1%nat. cbn [number_digits].
    change (2 ^ Z.of_nat 1) with 2 in Hn.
    rewrite Z.mod_small by lia.
    rewrite code_points_digit by lia. cbn [scan_digits].
    rewrite digit_value_char by lia.
    f_equal. change (10 ^ Z.of_nat 1) with 10. lia.
  - cbn [number_digits]. destruct (n <? 10) eqn:Hlt.
    + apply Z.ltb_lt in Hlt. exists 1%nat.
      rewrite Z.mod_small by lia.
      rewrite code_points_digit by lia. cbn [scan_digits].
      rewrite digit_value_char by lia.
      f_equal. change (10 ^ Z.of_nat 1) with 10. lia.
    + apply Z.ltb_ge in Hlt.
      destruct (IH (n / 10) (String (digit_char (n mod 10)) acc)) as [k Hk].
      { split; [apply Z.div_pos; lia |].
        apply Z.div_lt_upper_bound; [lia |].
        rewrite (Nat2Z.inj_succ (S fuel)), Z.pow_succ_r in Hn by lia. lia. }
      exists (S k). rewrite Hk.
      rewrite code_points_digit by mod10_range. cbn [scan_digits].
      rewrite digit_value_char by mod10_range.
      f_equal. rewrite Nat2Z.inj_succ, Z.pow_succ_r by lia.
      pose proof (Z.div_mod n 10 ltac:(lia)). lia.
Qed.

(** The digits of a number scan to that number; [negative] is the sign read
    before them. *)
Lemma scan_digits_number (fuel : nat) (n : Z) :
  0 <= n < 2 ^ Z.of_nat (S fuel) →
  ∃ d l, 0 <= d <= 9
         ∧ code_points (number_digits fuel n EmptyString) = N_of_ascii (digit_char d) :: l
         ∧ scan_digits 0 (N_of_ascii (digit_char d) :: l) = (n, []).
Proof.
  intros Hn.
  destruct (number_digits_head fuel n EmptyString ltac:(lia)) as (d & r & Hd & Hhead).
  destruct (scan_number_digits fuel n EmptyString 0 Hn) as [k Hk].
  rewrite Hhead, code_points_digit in Hk by exact Hd.
  exists d, (code_points r). split; [exact Hd |]. split.
  - rewrite Hhead. apply code_points_digit. exact Hd.
  - rewrite Hk, Z.mul_0_l. reflexivity.
Qed.

Lemma log2_fuel (n : Z) : 0 <= n → 0 <= n < 2 ^ Z.of_nat (S (Z.to_nat (Z.log2 n))).
Proof.
  intros Hn. split; [exact Hn |].
  destruct (Z.eq_dec n 0) as [-> | Hnz]; [reflexivity |].
  rewrite Nat2Z.inj_succ, Z2Nat.id by apply Z.log2_nonneg.
  apply Z.log2_spec. lia.
Qed.

Lemma scan_number_nonneg (n : Z) : 0 <= n → scan_number (QString_number n) = Some n.
Proof.
  intros Hn. unfold QString_number.
  destruct (n <? 0) eqn:Hneg; [apply Z.ltb_lt in Hneg; lia |].
  destruct (scan_digits_number _ n (log2_fuel n Hn)) as (d & l & Hd & Hcode & Hscan).
  unfold scan_number. rewrite Hcode, skip_space_digit, scan_sign_digit by exact Hd.
  rewrite digit_value_char, Hscan by exact Hd. reflexivity.
Qed.

(** White space of any kind around the number, and the minus sign U+2212. *)
Example QString_toInt_samples :
  map QString_toInt ["42"; " 42 "; " 7"; "−5"; " 7　"; "4 2"; "-"; ""; "2147483648"]
  = [42; 42; 7; -5; 7; 0; 0; 0; 0].
Proof. reflexivity. Qed.

(** [QString::toInt] reads back what [QString::number] wrote. *)
Lemma QString_toInt_number (n : Z) : 0 <= n <= INT_MAX → QString_toInt (QString_number n) = n.
Proof.
  intros [Hlo Hhi]. unfold QString_toInt.
  rewrite scan_number_nonneg by exact Hlo.
  unfold fits_int, INT_MIN, INT_MAX in *.
  destruct (- 2 ^ 31 <=? n) eqn:H1; destruct (n <=? 2 ^ 31 - 1) eqn:H2; try reflexivity; lia.
Qed.

End DecimalNumbers.

Section JsonValues.

(** A whole number that fits an [int] is what [toInt] returns, however the
    rational is written. *)
Lemma toInt_whole (d : Q) (z : Z) :
  Qeq d (inject_Z z) → fits_int z = true → toInt (JDouble d) = z.
Proof.
  intros Hd Hfit. unfold toInt.
  assert (truncate d = z) as ->.
  { unfold truncate. unfold Qeq in Hd. cbn in Hd.
    rewrite Z.mul_1_r in Hd. rewrite Hd. apply Z.quot_mul. lia. }
  rewrite Hfit. cbn [andb].
  assert (Qeq_bool (inject_Z z) d = true) as ->; [| reflexivity].
  apply Qeq_bool_iff. symmetry. exact Hd.
Qed.

(** A whole number outside the range of [int] is read as 0. *)
Lemma toInt_out_of_range (d : Q) (z : Z) :
  Qeq d (inject_Z z) → fits_int z = false → toInt (JDouble d) = 0.
Proof.
  intros Hd Hfit. unfold toInt.
  assert (truncate d = z) as ->.
  { unfold truncate. unfold Qeq in Hd. cbn in Hd.
    rewrite Z.mul_1_r in Hd. rewrite Hd. apply Z.quot_mul. lia. }
  rewrite Hfit. reflexivity.
Qed.

Lemma value_absent (obj : QJsonObject) (key : QString) :
  obj !! key = None → value obj key = JUndefined.
Proof. intros Hkey. unfold value. rewrite Hkey. reflexivity. Qed.

Lemma value_present (obj : QJsonObject) (key : QString) (v : QJsonValue) :
  obj !! key = Some v → value obj key = v.
Proof. intros Hkey. unfold value. rewrite Hkey. reflexivity. Qed.

Lemma toObject_not_object (v : QJsonValue) :
  (∀ o, v ≠ JObject o) → toObject v = ∅.
Proof. intros Hv. destruct v; try reflexivity. contradiction (Hv o eq_refl). Qed.

End JsonValues.

(** ** Facts about the reader *)

Section Reader.

Context `{env : Env}.

(** The loop appends one record per element, in order. *)
Lemma read_files_map (project : MerginProjectMetadata.t) (vFilesArray : QJsonArray) :
  MerginProjectMetadata.read_files project vFilesArray =
  MerginProjectMetadata.set_files project
    (MerginProjectMetadata.files project ++ map readFile vFilesArray)%list.
Proof.
  revert project. induction vFilesArray as [| it rest IH]; intros project.
  - cbn. rewrite app_nil_r. destruct project; reflexivity.
  - cbn [MerginProjectMetadata.read_files map]. rewrite IH.
    unfold MerginProjectMetadata.set_files. cbn.
    rewrite <- app_assoc. reflexivity.
Qed.

Lemma fromJson_not_object (data : QByteArray) :
  isObject (QJsonDocument_fromJson data) = false →
  MerginProjectMetadata.fromJson data =
    ([["MerginProjectMetadata::fromJson: invalid content!"]],
     Run.Returned MerginProjectMetadata.init).
Proof.
  intros Hdoc. unfold MerginProjectMetadata.fromJson. rewrite Hdoc. reflexivity.
Qed.

(** On an object that passes the assertion every member is read. *)
Lemma fromJson_object (data : QByteArray) (docObj : QJsonObject) :
  QJsonDocument_fromJson data = DocObject docObj →
  QT_NO_DEBUG || isArray (value docObj "files") = true →
  MerginProjectMetadata.fromJson data =
    ([], Run.Returned
           {| MerginProjectMetadata.name := toString (value docObj "name");
              MerginProjectMetadata.projectNamespace := toString (value docObj "namespace");
              MerginProjectMetadata.files := map readFile (toArray (value docObj "files"));
              MerginProjectMetadata.version := read_version (toString (value docObj "version")) |}).
Proof.
  intros Hdoc Hassert. unfold MerginProjectMetadata.fromJson, Q_ASSERT.
  rewrite Hdoc. cbn [isObject negb object]. rewrite Hassert.
  rewrite read_files_map. unfold read_version.
  destruct (QString_isEmpty (toString (value docObj "version")));
    [reflexivity |].
  destruct (QString_startsWith (toString (value docObj "version")) "v");
    reflexivity.
Qed.

(** On an object whose "files" is no array the assertion stops a build that
    has assertions. *)
Lemma fromJson_assertion (data : QByteArray) (docObj : QJsonObject) :
  QJsonDocument_fromJson data = DocObject docObj →
  QT_NO_DEBUG || isArray (value docObj "files") = false →
  MerginProjectMetadata.fromJson data = ([], Run.Aborted "vFiles.isArray()").
Proof.
  intros Hdoc Hassert. unfold MerginProjectMetadata.fromJson, Q_ASSERT.
  rewrite Hdoc. cbn [isObject negb object]. rewrite Hassert. reflexivity.
Qed.

End Reader.

(** ** The properties of the manifest reader *)

Section Properties.

Context `{env : Env}.

Lemma returned_of_run {A} (m : Run.t A) (out : list (list QString)) (a : A) :
  m = (out, Run.Returned a) → Run.returned m = Some a.
Proof. intros ->. reflexivity. Qed.

(** C1, as amended. [fromJson] returns a manifest exactly when the build
    has no assertions, or the top-level value is not an object, or it is an
    object whose "files" member is an array. In a build with assertions an
    object whose "files" member is absent or not an array fails
    [Q_ASSERT( vFiles.isArray() )] and no manifest is returned. *)
Theorem fromJson_returns_iff (data : QByteArray) :
  (∃ project, Run.returned (MerginProjectMetadata.fromJson data) = Some project) ↔
  (QT_NO_DEBUG = true
   ∨ isObject (QJsonDocument_fromJson data) = false
   ∨ isArray (value (object (QJsonDocument_fromJson data)) "files") = true).
Proof.
  destruct (QJsonDocument_fromJson data) as [| a | docObj] eqn:Hdoc.
  - split; [intros _; right; left; reflexivity | intros _].
    eexists. apply (returned_of_run _ _ _ (fromJson_not_object data ltac:(rewrite Hdoc; reflexivity))).
  - split; [intros _; right; left; reflexivity | intros _].
    eexists. apply (returned_of_run _ _ _ (fromJson_not_object data ltac:(rewrite Hdoc; reflexivity))).
  - cbn [isObject object].
    destruct (QT_NO_DEBUG || isArray (value docObj "files")) eqn:Hassert.
    + rewrite (fromJson_object data docObj Hdoc Hassert). split.
      * intros _. apply orb_true_iff in Hassert. tauto.
      * intros _. eexists. reflexivity.
    + rewrite (fromJson_assertion data docObj Hdoc Hassert). split.
      * intros [project Hproject]. discriminate Hproject.
      * apply orb_false_iff in Hassert. destruct Hassert as [Hbuild Harray].
        intros [H | [H | H]]; congruence.
Qed.

(** C4, as amended. When the top-level value is not an object, [fromJson]
    writes one line to the debug stream and returns the default-constructed
    manifest: no files, empty name, empty namespace, and the version a
    default-constructed manifest has. *)
Theorem fromJson_invalid_content (data : QByteArray) :
  isObject (QJsonDocument_fromJson data) = false →
  MerginProjectMetadata.fromJson data =
    ([["MerginProjectMetadata::fromJson: invalid content!"]],
     Run.Returned
       {| MerginProjectMetadata.name := "";
          MerginProjectMetadata.projectNamespace := "";
          MerginProjectMetadata.files := [];
          MerginProjectMetadata.version := MerginProjectMetadata_version_init |}).
Proof. intros Hdoc. apply fromJson_not_object. exact Hdoc. Qed.

(** C5. [fromCachedJson] returns the default-constructed manifest, with
    nothing written and nothing raised, when the file cannot be opened for
    reading, and otherwise exactly what [fromJson] returns on the contents
    of the file. *)
Theorem fromCachedJson_spec (fs : FileSystem) (metadataFilePath : QString) :
  (fs !! metadataFilePath = None →
     MerginProjectMetadata.fromCachedJson fs metadataFilePath
     = ([], Run.Returned MerginProjectMetadata.init))
  ∧ (∀ contents, fs !! metadataFilePath = Some contents →
     MerginProjectMetadata.fromCachedJson fs metadataFilePath
     = MerginProjectMetadata.fromJson contents).
Proof.
  unfold MerginProjectMetadata.fromCachedJson. split.
  - intros ->. reflexivity.
  - intros contents ->. reflexivity.
Qed.

(** C8, as amended. On a document whose top-level value is an object, every
    manifest [fromJson] returns has the "name" and "namespace" strings of the
    object as its name and namespace, and the empty string for a member that
    is absent; and it returns a manifest whenever the assertion on "files"
    passes. When that assertion fails no manifest is returned. *)
Theorem fromJson_name_namespace (data : QByteArray) (docObj : QJsonObject) :
  QJsonDocument_fromJson data = DocObject docObj →
  (∀ project, Run.returned (MerginProjectMetadata.fromJson data) = Some project →
     (∀ s, docObj !! "name" = Some (JString s) → MerginProjectMetadata.name project = s)
     ∧ (docObj !! "name" = None → MerginProjectMetadata.name project = "")
     ∧ (∀ s, docObj !! "namespace" = Some (JString s) →
          MerginProjectMetadata.projectNamespace project = s)
     ∧ (docObj !! "namespace" = None → MerginProjectMetadata.projectNamespace project = ""))
  ∧ (QT_NO_DEBUG || isArray (value docObj "files") = true →
     ∃ project, Run.returned (MerginProjectMetadata.fromJson data) = Some project)
  ∧ (QT_NO_DEBUG || isArray (value docObj "files") = false →
     Run.returned (MerginProjectMetadata.fromJson data) = None).
Proof.
  intros Hdoc. split; [| split].
  3: { intros Hassert. rewrite (fromJson_assertion data docObj Hdoc Hassert). reflexivity. }
  - intros project Hproject.
    destruct (QT_NO_DEBUG || isArray (value docObj "files")) eqn:Hassert.
    + rewrite (fromJson_object data docObj Hdoc Hassert) in Hproject.
      injection Hproject as <-. cbn.
      repeat split.
      * intros s Hs. rewrite (value_present _ _ _ Hs). reflexivity.
      * intros Hs. rewrite (value_absent _ _ Hs). reflexivity.
      * intros s Hs. rewrite (value_present _ _ _ Hs). reflexivity.
      * intros Hs. rewrite (value_absent _ _ Hs). reflexivity.
    + rewrite (fromJson_assertion data docObj Hdoc Hassert) in Hproject.
      discriminate Hproject.
  - intros Hassert. rewrite (fromJson_object data docObj Hdoc Hassert).
    eexists. reflexivity.
Qed.

(** C2, as amended. On a document whose top-level value is an object,
    every manifest [fromJson] returns has its version set from the
    "version" string: 0 for the empty string; for a string that starts with
    the letter v, the rest of it read as a decimal [int], which is 0 when
    the rest is not a number and [n] when it is the decimal writing of an
    [n] from 0 to [INT_MAX]; and for any other non-empty string the version
    is not assigned and keeps the value a default-constructed manifest has.
    A manifest is returned whenever the assertion on "files" passes. *)
Theorem fromJson_version (data : QByteArray) (docObj : QJsonObject) :
  QJsonDocument_fromJson data = DocObject docObj →
  (∀ project, Run.returned (MerginProjectMetadata.fromJson data) = Some project →
     let versionStr := toString (value docObj "version") in
     (versionStr = "" → MerginProjectMetadata.version project = 0)
     ∧ (∀ rest, versionStr = String "v" rest →
          MerginProjectMetadata.version project = QString_toInt rest)
     ∧ (∀ rest, versionStr = String "v" rest → scan_number rest = None →
          MerginProjectMetadata.version project = 0)
     ∧ (∀ n, versionStr = String "v" (QString_number n) → 0 <= n <= INT_MAX →
          MerginProjectMetadata.version project = n)
     ∧ (versionStr ≠ "" → QString_startsWith versionStr "v" = false →
          MerginProjectMetadata.version project = MerginProjectMetadata_version_init))
  ∧ (QT_NO_DEBUG || isArray (value docObj "files") = true →
     ∃ project, Run.returned (MerginProjectMetadata.fromJson data) = Some project).
Proof.
  intros Hdoc. split.
  - intros project Hproject versionStr.
    destruct (QT_NO_DEBUG || isArray (value docObj "files")) eqn:Hassert.
    2: { rewrite (fromJson_assertion data docObj Hdoc Hassert) in Hproject.
         discriminate Hproject. }
    rewrite (fromJson_object data docObj Hdoc Hassert) in Hproject.
    injection Hproject as <-. cbn [MerginProjectMetadata.version].
    fold versionStr. unfold read_version.
    assert (∀ rest, versionStr = String "v" rest →
              (if QString_isEmpty versionStr then 0
               else if QString_startsWith versionStr "v"
                    then QString_toInt (QString_mid versionStr 1)
                    else MerginProjectMetadata_version_init) = QString_toInt rest)
      as Hprefixed.
    { intros rest ->. reflexivity. }
    repeat split.
    + intros ->. reflexivity.
    + exact Hprefixed.
    + intros rest Hrest Hscan. rewrite (Hprefixed rest Hrest).
      unfold QString_toInt. rewrite Hscan. reflexivity.
    + intros n Hn Hrange. rewrite (Hprefixed _ Hn).
      apply QString_toInt_number. exact Hrange.
    + intros Hne Hstart. rewrite Hstart.
      destruct versionStr; [contradiction Hne; reflexivity | reflexivity].
  - intros Hassert. rewrite (fromJson_object data docObj Hdoc Hassert).
    eexists. reflexivity.
Qed.

(** C3. [fileInfo] scans the files in order and compares the paths for
    equality as they are: it returns the first record whose path is the one
    asked for, whatever follows it, and when no record has that path it
    writes a line to the debug stream and returns a default-constructed
    record, whose path is empty. *)
Theorem fileInfo_first_match (project : MerginProjectMetadata.t) (filePath : QString) :
  (∀ before merginFile after,
     MerginProjectMetadata.files project = (before ++ merginFile :: after)%list →
     Forall (λ other, MerginFile.path other ≠ filePath) before →
     MerginFile.path merginFile = filePath →
     MerginProjectMetadata.fileInfo project filePath = ([], Run.Returned merginFile))
  ∧ (Forall (λ other, MerginFile.path other ≠ filePath)
       (MerginProjectMetadata.files project) →
     MerginProjectMetadata.fileInfo project filePath
     = ([["requested fileInfo() for non-existant file! "; filePath]],
        Run.Returned MerginFile.init)
     ∧ MerginFile.path MerginFile.init = "").
Proof.
  unfold MerginProjectMetadata.fileInfo. split.
  - intros before merginFile after -> Hbefore Hpath.
    assert (MerginProjectMetadata.find_file (before ++ merginFile :: after) filePath
            = Some merginFile) as ->; [| reflexivity].
    induction Hbefore as [| other before Hother _ IH]; cbn.
    + rewrite decide_True by exact Hpath. reflexivity.
    + rewrite decide_False by exact Hother. exact IH.
  - intros Hnone.
    assert (MerginProjectMetadata.find_file (MerginProjectMetadata.files project) filePath
            = None) as ->; [| split; reflexivity].
    induction Hnone as [| other rest Hother _ IH]; cbn.
    + reflexivity.
    + rewrite decide_False by exact Hother. exact IH.
Qed.

(** With an array of files the assertion passes in every build. *)
Lemma fromJson_files_array (data : QByteArray) (docObj : QJsonObject)
    (vFilesArray : QJsonArray) :
  QJsonDocument_fromJson data = DocObject docObj →
  value docObj "files" = JArray vFilesArray →
  MerginProjectMetadata.fromJson data =
    ([], Run.Returned
           {| MerginProjectMetadata.name := toString (value docObj "name");
              MerginProjectMetadata.projectNamespace := toString (value docObj "namespace");
              MerginProjectMetadata.files := map readFile vFilesArray;
              MerginProjectMetadata.version := read_version (toString (value docObj "version")) |}).
Proof.
  intros Hdoc Hfiles. rewrite (fromJson_object data docObj Hdoc).
  - rewrite Hfiles. reflexivity.
  - rewrite Hfiles. apply orb_true_r.
Qed.

(** C6. On an object with an array of files, [fromJson] returns a manifest
    with one record per element, and in each record the time is the "mtime"
    string read in the format [Qt::ISODateWithMs] and converted to UTC: a
    string that denotes an instant gives that same instant in UTC, and a
    string that cannot be read gives the invalid date-time, while the path,
    checksum and size of that record, and all other records, are read as
    usual. *)
Theorem fromJson_mtime (data : QByteArray) (docObj : QJsonObject) (vFilesArray : QJsonArray) :
  QJsonDocument_fromJson data = DocObject docObj →
  value docObj "files" = JArray vFilesArray →
  ∃ project,
    MerginProjectMetadata.fromJson data = ([], Run.Returned project)
    ∧ length (MerginProjectMetadata.files project) = length vFilesArray
    ∧ ∀ (i : nat) it, vFilesArray !! i = Some it →
        ∃ merginFile,
          MerginProjectMetadata.files project !! i = Some merginFile
          ∧ let merginFileInfo := toObject it in
            let parsed :=
              QDateTime_fromString (toString (value merginFileInfo "mtime")) ISODateWithMs in
            MerginFile.mtime merginFile = toUTC parsed
            ∧ (∀ ms spec, parsed = DateTime ms spec →
                 MerginFile.mtime merginFile = DateTime ms UTC)
            ∧ (parsed = InvalidDateTime → MerginFile.mtime merginFile = InvalidDateTime)
            ∧ MerginFile.path merginFile = toString (value merginFileInfo "path")
            ∧ MerginFile.checksum merginFile = toString (value merginFileInfo "checksum")
            ∧ MerginFile.size merginFile = toInt (value merginFileInfo "size").
Proof.
  intros Hdoc Hfiles. eexists. split; [apply (fromJson_files_array _ _ _ Hdoc Hfiles) |].
  cbn [MerginProjectMetadata.files]. split; [apply length_map |].
  intros i it Hit. exists (readFile it). split.
  - rewrite list_lookup_fmap, Hit. reflexivity.
  - cbn. repeat split.
    + intros ms spec ->. reflexivity.
    + intros ->. reflexivity.
Qed.

(** C9. On an object with an array of files, [fromJson] returns a manifest
    whose files are the records read from the elements, one per element and
    in the order of the array, so there are as many files as elements; an
    element that is not an object gives the record with empty path, empty
    checksum, size 0 and the invalid date-time. *)
Theorem fromJson_files (data : QByteArray) (docObj : QJsonObject) (vFilesArray : QJsonArray) :
  QJsonDocument_fromJson data = DocObject docObj →
  value docObj "files" = JArray vFilesArray →
  ∃ project,
    MerginProjectMetadata.fromJson data = ([], Run.Returned project)
    ∧ MerginProjectMetadata.files project = map readFile vFilesArray
    ∧ length (MerginProjectMetadata.files project) = length vFilesArray
    ∧ ∀ (i : nat) it, vFilesArray !! i = Some it → (∀ o, it ≠ JObject o) →
        MerginProjectMetadata.files project !! i
        = Some {| MerginFile.path := ""; MerginFile.checksum := "";
                  MerginFile.size := 0; MerginFile.mtime := InvalidDateTime |}.
Proof.
  intros Hdoc Hfiles. eexists. split; [apply (fromJson_files_array _ _ _ Hdoc Hfiles) |].
  cbn [MerginProjectMetadata.files]. split; [reflexivity |].
  split; [apply length_map |].
  intros i it Hit Hnot. rewrite list_lookup_fmap, Hit. cbn [fmap option_fmap option_map].
  rewrite (toObject_not_object it Hnot). reflexivity.
Qed.

(** C10, as amended. The size is not checked for its sign: on an object
    with an array of files, for an element that is an object whose "size"
    is a negative whole number not below [INT_MIN], the record read from
    that element has that negative size. *)
Theorem fromJson_negative_size (data : QByteArray) (docObj : QJsonObject)
    (vFilesArray : QJsonArray) (i : nat) (merginFileInfo : QJsonObject) (d : Q) (z : Z) :
  QJsonDocument_fromJson data = DocObject docObj →
  value docObj "files" = JArray vFilesArray →
  vFilesArray !! i = Some (JObject merginFileInfo) →
  merginFileInfo !! "size" = Some (JDouble d) →
  Qeq d (inject_Z z) →
  INT_MIN <= z < 0 →
  ∃ project merginFile,
    Run.returned (MerginProjectMetadata.fromJson data) = Some project
    ∧ MerginProjectMetadata.files project !! i = Some merginFile
    ∧ MerginFile.size merginFile = z.
Proof.
  intros Hdoc Hfiles Hit Hsize Hd Hz.
  rewrite (fromJson_files_array _ _ _ Hdoc Hfiles).
  eexists. exists (readFile (JObject merginFileInfo)).
  split; [reflexivity |]. cbn [MerginProjectMetadata.files]. split.
  - rewrite list_lookup_fmap, Hit. reflexivity.
  - cbn. rewrite (value_present _ _ _ Hsize). apply toInt_whole; [exact Hd |].
    unfold fits_int, INT_MIN, INT_MAX in *.
    apply andb_true_iff. split; apply Z.leb_le; lia.
Qed.

(** Reading back one written file record. *)
Lemma readFile_fileToJson (merginFile : MerginFile.t) :
  Writer.valid_file merginFile = true →
  Writer.within_int_file merginFile = true →
  toMSecsSinceEpoch
    (QDateTime_fromString
       (printDate (MerginFile.mtime merginFile) ISODateWithMs) ISODateWithMs)
  = toMSecsSinceEpoch (MerginFile.mtime merginFile) →
  readFile (Writer.fileToJson merginFile) = merginFile.
Proof.
  destruct merginFile as [path checksum size mtime].
  unfold Writer.valid_file, Writer.within_int_file. cbn [MerginFile.size MerginFile.mtime].
  intros Hvalid Hhi Hiso.
  apply andb_true_iff in Hvalid as [Hlo Hutc].
  apply Z.leb_le in Hlo, Hhi.
  unfold Writer.fileToJson, MerginFile.fromJsonObject, value.
  cbn [toObject MerginFile.path MerginFile.checksum MerginFile.size MerginFile.mtime].
  rewrite lookup_insert_eq.
  do 1 (rewrite lookup_insert_ne by discriminate). rewrite lookup_insert_eq.
  do 2 (rewrite lookup_insert_ne by discriminate). rewrite lookup_insert_eq.
  do 3 (rewrite lookup_insert_ne by discriminate). rewrite lookup_insert_eq.
  cbn [from_option id toString].
  f_equal.
  - apply toInt_whole; [reflexivity |].
    unfold fits_int, INT_MIN, INT_MAX in *.
    apply andb_true_iff. split; apply Z.leb_le; lia.
  - destruct mtime as [| ms spec]; [discriminate Hutc |].
    destruct spec; try discriminate Hutc.
    destruct (QDateTime_fromString (printDate (DateTime ms UTC) ISODateWithMs) ISODateWithMs)
      as [| ms' spec']; [discriminate Hiso |].
    cbn in Hiso. injection Hiso as ->. reflexivity.
Qed.

(** C7, as amended. For a valid manifest whose version and sizes are at most
    [INT_MAX], on a host where the Qt readers read back what the Qt writers
    wrote for it (the JSON document of the manifest, and the time of each
    file up to the instant), [fromJson] of the serialized manifest returns
    that manifest: name, namespace, version, and the path, checksum, size and
    time of each file, in order. *)
Theorem fromJson_serialize (project : MerginProjectMetadata.t) :
  Writer.valid project = true →
  Writer.within_int project = true →
  QJsonDocument_fromJson (Writer.serialize project) = Writer.toJsonDocument project →
  Forall (λ merginFile,
            toMSecsSinceEpoch
              (QDateTime_fromString
                 (printDate (MerginFile.mtime merginFile) ISODateWithMs) ISODateWithMs)
            = toMSecsSinceEpoch (MerginFile.mtime merginFile))
         (MerginProjectMetadata.files project) →
  MerginProjectMetadata.fromJson (Writer.serialize project) = ([], Run.Returned project).
Proof.
  destruct project as [name projectNamespace files version].
  unfold Writer.valid, Writer.within_int.
  cbn [MerginProjectMetadata.version MerginProjectMetadata.files].
  intros Hvalid Hwithin Hjson Hiso.
  apply andb_true_iff in Hvalid as [Hlo Hfiles].
  apply andb_true_iff in Hwithin as [Hhi Hsizes].
  apply Z.leb_le in Hlo, Hhi.
  unfold Writer.toJsonDocument in Hjson.
  cbn [MerginProjectMetadata.name MerginProjectMetadata.projectNamespace
       MerginProjectMetadata.version MerginProjectMetadata.files] in Hjson.
  rewrite (fromJson_files_array _ _ (map Writer.fileToJson files) Hjson).
  2: { unfold value. do 3 (rewrite lookup_insert_ne by discriminate).
       rewrite lookup_insert_eq. reflexivity. }
  unfold value.
  rewrite lookup_insert_eq.
  do 1 (rewrite lookup_insert_ne by discriminate). rewrite lookup_insert_eq.
  do 2 (rewrite lookup_insert_ne by discriminate). rewrite lookup_insert_eq.
  cbn [from_option id toString].
  do 3 f_equal.
  - clear Hjson. rewrite map_map. rewrite forallb_forall in Hfiles, Hsizes.
    induction Hiso as [| merginFile rest Hhead _ IH]; [reflexivity |].
    cbn [map]. f_equal.
    + apply readFile_fileToJson;
        [apply Hfiles; left; reflexivity | apply Hsizes; left; reflexivity | exact Hhead].
    + apply IH; intros other Hother; [apply Hfiles | apply Hsizes]; right; exact Hother.
  - unfold read_version. cbn.
    apply QString_toInt_number. split; assumption.
Qed.

End Properties.

(** ** The sample documents, read in a build with assertions *)

Section DebugBuild.

#[local] Existing Instance Sample.debug_build.

(** An object without "files" fails the assertion: no manifest comes back. *)
Lemma fromJson_assertion_sample :
  MerginProjectMetadata.fromJson (Sample.bytes Sample.nofiles_text)
  = ([], Run.Aborted "vFiles.isArray()")
  ∧ ¬ ∃ project,
        Run.returned (MerginProjectMetadata.fromJson (Sample.bytes Sample.nofiles_text))
        = Some project.
Proof.
  split; [vm_compute; reflexivity |].
  intros [project Hproject]. vm_compute in Hproject. discriminate Hproject.
Qed.

(** The version string "7" leaves the version at -1, not 0. *)
Lemma fromJson_version_unprefixed_sample :
  toString (value (Sample.survey_json "7") "version") = "7"
  ∧ MerginProjectMetadata.version
      <$> Run.returned (MerginProjectMetadata.fromJson (Sample.bytes (Sample.survey_text "7")))
    = Some (-1)
  ∧ MerginProjectMetadata.version
      <$> Run.returned (MerginProjectMetadata.fromJson (Sample.bytes (Sample.survey_text "7")))
    ≠ Some 0.
Proof.
  split; [vm_compute; reflexivity |].
  split; [vm_compute; reflexivity |].
  vm_compute. discriminate.
Qed.

Lemma fromJson_version_witness :
  QJsonDocument_fromJson Sample.survey_data = DocObject (Sample.survey_json "v3")
  ∧ MerginProjectMetadata.version
      <$> Run.returned (MerginProjectMetadata.fromJson Sample.survey_data)
    = Some 3.
Proof.
  split; [vm_compute; reflexivity |].
  destruct (fromJson_version Sample.survey_data (Sample.survey_json "v3"))
    as [Hfields Hreturns]; [vm_compute; reflexivity |].
  destruct Hreturns as [project Hproject]; [vm_compute; reflexivity |].
  destruct (Hfields project Hproject) as (_ & _ & _ & Hnumber & _).
  rewrite Hproject. cbn. f_equal.
  apply (Hnumber 3); [vm_compute; reflexivity | vm_compute; split; discriminate].
Defined.

(** A top-level array gives the default manifest, whose version is -1. *)
Lemma fromJson_invalid_content_sample :
  isObject (QJsonDocument_fromJson (Sample.bytes "[]")) = false
  ∧ MerginProjectMetadata.version
      <$> Run.returned (MerginProjectMetadata.fromJson (Sample.bytes "[]"))
    = Some (-1)
  ∧ MerginProjectMetadata.version
      <$> Run.returned (MerginProjectMetadata.fromJson (Sample.bytes "[]"))
    ≠ Some 0.
Proof.
  split; [vm_compute; reflexivity |].
  split; [vm_compute; reflexivity |].
  vm_compute. discriminate.
Qed.

Lemma fromJson_invalid_content_witness :
  isObject (QJsonDocument_fromJson (Sample.bytes "[]")) = false
  ∧ MerginProjectMetadata.files
      <$> Run.returned (MerginProjectMetadata.fromJson (Sample.bytes "[]"))
    = Some [].
Proof.
  split; [vm_compute; reflexivity |].
  rewrite (fromJson_invalid_content (Sample.bytes "[]")); [reflexivity |].
  vm_compute; reflexivity.
Defined.

Lemma fileInfo_first_match_witness :
  MerginProjectMetadata.fileInfo Sample.twice "data.gpkg"
  = ([], Run.Returned Sample.survey_file)
  ∧ MerginFile.path
      <$> Run.returned (MerginProjectMetadata.fileInfo Sample.twice "Data.gpkg")
    = Some "".
Proof.
  destruct (fileInfo_first_match Sample.twice "data.gpkg") as [Hfound _].
  destruct (fileInfo_first_match Sample.twice "Data.gpkg") as [_ Hmissing].
  split.
  - apply (Hfound [Sample.photo_file] Sample.survey_file [Sample.survey_file_again]).
    + reflexivity.
    + repeat constructor. discriminate.
    + reflexivity.
  - destruct Hmissing as [Hrun Hpath].
    + repeat constructor; discriminate.
    + rewrite Hrun. reflexivity.
Defined.

Lemma fromCachedJson_spec_witness :
  MerginProjectMetadata.fromCachedJson Sample.cache "absent.json"
  = ([], Run.Returned MerginProjectMetadata.init)
  ∧ MerginProjectMetadata.fromCachedJson Sample.cache "mergin.json"
    = MerginProjectMetadata.fromJson Sample.survey_data.
Proof.
  split.
  - apply (proj1 (fromCachedJson_spec Sample.cache "absent.json")).
    vm_compute; reflexivity.
  - apply (proj2 (fromCachedJson_spec Sample.cache "mergin.json")).
    vm_compute; reflexivity.
Defined.

(** The times of the sample records: one given with an offset, read as the
    same instant in UTC, and one that cannot be read. *)
Lemma fromJson_mtime_witness :
  ∃ project,
    Run.returned (MerginProjectMetadata.fromJson Sample.odd_data) = Some project
    ∧ MerginFile.mtime <$> MerginProjectMetadata.files project !! 1%nat
      = Some (DateTime Sample.mtime_msecs UTC)
    ∧ MerginProjectMetadata.files project !! 2%nat
      = Some {| MerginFile.path := "b"; MerginFile.checksum := "";
                MerginFile.size := 0; MerginFile.mtime := InvalidDateTime |}.
Proof.
  destruct (fromJson_mtime Sample.odd_data Sample.odd_json Sample.odd_array)
    as (project & Hrun & Hlength & Hrecords);
    [vm_compute; reflexivity | vm_compute; reflexivity |].
  exists project. split; [rewrite Hrun; reflexivity |].
  split.
  - destruct (Hrecords 1%nat (JObject Sample.negative_json) eq_refl)
      as (merginFile & -> & _ & Hvalid & _).
    cbn. f_equal.
    apply (Hvalid Sample.mtime_msecs OffsetFromUTC). vm_compute; reflexivity.
  - destruct (Hrecords 2%nat (JObject Sample.below_int_json) eq_refl)
      as (merginFile & -> & _ & _ & Hinvalid & Hpath & Hchecksum & Hsize).
    f_equal. destruct merginFile as [path checksum size mtime].
    cbn in Hinvalid, Hpath, Hchecksum, Hsize.
    rewrite Hinvalid by (vm_compute; reflexivity).
    rewrite Hpath, Hchecksum, Hsize. vm_compute; reflexivity.
Defined.

Lemma fromJson_serialize_witness :
  Writer.valid Sample.survey = true
  ∧ Writer.within_int Sample.survey = true
  ∧ MerginProjectMetadata.fromJson (Writer.serialize Sample.survey)
    = ([], Run.Returned Sample.survey).
Proof.
  split; [vm_compute; reflexivity |]. split; [vm_compute; reflexivity |].
  apply (fromJson_serialize Sample.survey).
  - vm_compute; reflexivity.
  - vm_compute; reflexivity.
  - vm_compute; reflexivity.
  - repeat constructor.
Defined.

Lemma fromJson_files_witness :
  ∃ project,
    Run.returned (MerginProjectMetadata.fromJson Sample.odd_data) = Some project
    ∧ length (MerginProjectMetadata.files project) = 3%nat
    ∧ MerginProjectMetadata.files project !! 0%nat
      = Some {| MerginFile.path := ""; MerginFile.checksum := "";
                MerginFile.size := 0; MerginFile.mtime := InvalidDateTime |}.
Proof.
  destruct (fromJson_files Sample.odd_data Sample.odd_json Sample.odd_array)
    as (project & Hrun & _ & Hlength & Hother);
    [vm_compute; reflexivity | vm_compute; reflexivity |].
  exists project. split; [rewrite Hrun; reflexivity |].
  split; [exact Hlength |].
  apply (Hother 0%nat (JDouble (inject_Z 7)) eq_refl).
  intros o Ho. discriminate Ho.
Defined.

Lemma fromJson_negative_size_witness :
  ∃ project merginFile,
    Run.returned (MerginProjectMetadata.fromJson Sample.odd_data) = Some project
    ∧ MerginProjectMetadata.files project !! 1%nat = Some merginFile
    ∧ MerginFile.size merginFile = -5.
Proof.
  apply (fromJson_negative_size Sample.odd_data Sample.odd_json Sample.odd_array
           1%nat Sample.negative_json (inject_Z (-5)) (-5)).
  - vm_compute; reflexivity.
  - vm_compute; reflexivity.
  - reflexivity.
  - vm_compute; reflexivity.
  - reflexivity.
  - unfold INT_MIN. lia.
Defined.

(** A size below [INT_MIN] is not kept: the record has size 0. *)
Lemma fromJson_negative_size_sample :
  Sample.odd_array !! 2%nat = Some (JObject Sample.below_int_json)
  ∧ Sample.below_int_json !! "size" = Some (JDouble (inject_Z (-2147483649)))
  ∧ (Run.returned (MerginProjectMetadata.fromJson Sample.odd_data)
       ≫= λ project, MerginFile.size <$> MerginProjectMetadata.files project !! 2%nat)
    = Some 0.
Proof.
  split; [reflexivity |]. split; vm_compute; reflexivity.
Qed.

End DebugBuild.

(** ** The names of the sample documents, and the large file *)

Section NamesAndSizes.

#[local] Existing Instance Sample.debug_build.

(** The survey has both names; the document of odd files has neither. *)
Lemma fromJson_name_namespace_witness :
  (∃ project,
     Run.returned (MerginProjectMetadata.fromJson Sample.survey_data) = Some project
     ∧ MerginProjectMetadata.name project = "Survey"
     ∧ MerginProjectMetadata.projectNamespace project = "org1")
  ∧ (∃ project,
       Run.returned (MerginProjectMetadata.fromJson Sample.odd_data) = Some project
       ∧ MerginProjectMetadata.name project = ""
       ∧ MerginProjectMetadata.projectNamespace project = "").
Proof.
  split.
  - destruct (fromJson_name_namespace Sample.survey_data (Sample.survey_json "v3"))
      as (Hfields & Hreturns & _); [vm_compute; reflexivity |].
    destruct Hreturns as [project Hproject]; [vm_compute; reflexivity |].
    exists project. split; [exact Hproject |].
    destruct (Hfields project Hproject) as (Hname & _ & Hnamespace & _).
    split.
    + apply Hname. vm_compute; reflexivity.
    + apply Hnamespace. vm_compute; reflexivity.
  - destruct (fromJson_name_namespace Sample.odd_data Sample.odd_json)
      as (Hfields & Hreturns & _); [vm_compute; reflexivity |].
    destruct Hreturns as [project Hproject]; [vm_compute; reflexivity |].
    exists project. split; [exact Hproject |].
    destruct (Hfields project Hproject) as (_ & Hname & _ & Hnamespace).
    split.
    + apply Hname. vm_compute; reflexivity.
    + apply Hnamespace. vm_compute; reflexivity.
Defined.

(** The object with the name "Survey" and no "files": in this build no
    manifest comes back, so no name is extracted. *)
Lemma fromJson_name_sample :
  QJsonDocument_fromJson (Sample.bytes Sample.nofiles_text) = DocObject Sample.nofiles_json
  ∧ Sample.nofiles_json !! "name" = Some (JString "Survey")
  ∧ Run.returned (MerginProjectMetadata.fromJson (Sample.bytes Sample.nofiles_text)) = None.
Proof.
  split; [vm_compute; reflexivity |]. split; vm_compute; reflexivity.
Qed.

End NamesAndSizes.

Section LargeFile.

#[local] Existing Instance SampleBig.env.

(** A valid manifest with a file of 3 000 000 000 bytes, on a host that
    reads back the document and the time as written: the size comes back
    as 0. *)
Lemma fromJson_serialize_big_file :
  Writer.valid SampleBig.big = true
  ∧ QJsonDocument_fromJson (Writer.serialize SampleBig.big)
    = Writer.toJsonDocument SampleBig.big
  ∧ Forall (λ merginFile,
              toMSecsSinceEpoch
                (QDateTime_fromString
                   (printDate (MerginFile.mtime merginFile) ISODateWithMs) ISODateWithMs)
              = toMSecsSinceEpoch (MerginFile.mtime merginFile))
           (MerginProjectMetadata.files SampleBig.big)
  ∧ (Run.returned (MerginProjectMetadata.fromJson (Writer.serialize SampleBig.big))
       ≫= λ project, MerginFile.size <$> MerginProjectMetadata.files project !! 0%nat)
    = Some 0
  ∧ MerginProjectMetadata.fromJson (Writer.serialize SampleBig.big)
    ≠ ([], Run.Returned SampleBig.big).
Proof.
  split; [vm_compute; reflexivity |].
  split; [vm_compute; reflexivity |].
  split; [repeat constructor |].
  split; [vm_compute; reflexivity |].
  intros Hsame. vm_compute in Hsame. discriminate Hsame.
Qed.

End LargeFile.


(** ** The list model of the map themes: facts about the list operations *)

Section ThemeLists.

Import MapThemesModel.

Lemma collect_themes_spec (names allThemes : list QString) :
  collect_themes names allThemes
  = (map (λ name, qDebug ["Found map theme: "; name]) names, (allThemes ++ names)%list).
Proof.
  revert allThemes. induction names as [| name rest IH]; intros allThemes; cbn.
  - rewrite app_nil_r. reflexivity.
  - rewrite IH, <- app_assoc. reflexivity.
Qed.

Lemma indexOf_from_absent (l : list QString) (x : QString) (from : Z) :
  x ∉ l → indexOf_from l x from = -1.
Proof.
  revert from. induction l as [| y rest IH]; intros from Hx; cbn; [reflexivity |].
  apply not_elem_of_cons in Hx as [Hne Hrest].
  rewrite decide_False by congruence. apply IH. exact Hrest.
Qed.

Lemma indexOf_from_first (before after : list QString) (x : QString) (from : Z) :
  x ∉ before →
  indexOf_from (before ++ x :: after) x from = from + Z.of_nat (length before).
Proof.
  revert from. induction before as [| y rest IH]; intros from Hx; cbn [app indexOf_from length].
  - rewrite decide_True by reflexivity. lia.
  - apply not_elem_of_cons in Hx as [Hne Hrest].
    rewrite decide_False by congruence. rewrite IH by exact Hrest. lia.
Qed.

(** A name of the list has a first place in it. *)
Lemma elem_of_first (l : list QString) (x : QString) :
  x ∈ l → ∃ before after, l = (before ++ x :: after)%list ∧ x ∉ before.
Proof.
  induction l as [| y rest IH]; intros Hx; [inversion Hx |].
  destruct (decide (y = x)) as [-> | Hne].
  - exists [], rest. split; [reflexivity | apply not_elem_of_nil].
  - apply elem_of_cons in Hx as [-> | Hx]; [contradiction Hne; reflexivity |].
    destruct (IH Hx) as (before & after & -> & Hbefore).
    exists (y :: before), after. split; [reflexivity |].
    apply not_elem_of_cons. split; [congruence | exact Hbefore].
Qed.

Lemma QList_at_lookup (l : list QString) (i : nat) (x : QString) :
  l !! i = Some x → QList_at l (Z.of_nat i) = Run.Returned x.
Proof.
  intros Hx. unfold QList_at, count.
  pose proof (lookup_lt_Some _ _ _ Hx) as Hlt.
  assert ((0 <=? Z.of_nat i) && (Z.of_nat i <? Z.of_nat (length l)) = true) as ->.
  { apply andb_true_iff. split; [apply Z.leb_le | apply Z.ltb_lt]; lia. }
  rewrite Nat2Z.id, Hx. reflexivity.
Qed.

Lemma QList_at_out_of_range (l : list QString) (i : Z) :
  ¬ (0 <= i < count l) → QList_at l i = Run.Aborted "QList::at: index out of range".
Proof.
  intros Hi. unfold QList_at.
  assert ((0 <=? i) && (i <? count l) = false) as ->; [| reflexivity].
  apply andb_false_iff.
  destruct (Z.leb_spec 0 i); [| left; reflexivity].
  right. apply Z.ltb_ge. lia.
Qed.

End ThemeLists.

(** ** The list model of the map themes: what its methods do *)

Section ThemesModel.

Context `{header : ThemesHeader}.

Import MapThemesModel.

Lemma rowAccordingName_first (self : t) (name : QString) (defaultIndex : Z)
    (before after : list QString) :
  mMapThemes self = (before ++ name :: after)%list → name ∉ before →
  rowAccordingName self name defaultIndex = Z.of_nat (length before).
Proof.
  unfold rowAccordingName, QList_indexOf. intros -> Hbefore.
  rewrite indexOf_from_first by exact Hbefore.
  destruct (Z.ltb_spec (0 + Z.of_nat (length before)) 0); lia.
Qed.

Lemma rowAccordingName_absent (self : t) (name : QString) (defaultIndex : Z) :
  name ∉ mMapThemes self → rowAccordingName self name defaultIndex = defaultIndex.
Proof.
  unfold rowAccordingName, QList_indexOf. intros Habsent.
  rewrite indexOf_from_absent by exact Habsent. reflexivity.
Qed.

(** What [reloadMapThemes] writes, signals and leaves, on a model with a
    project. *)
Lemma reloadMapThemes_run (self : t) (project : QgsProject) :
  mProject self = Some project →
  reloadMapThemes self
  = ((map (λ name, qDebug ["Found map theme: "; name]) (mapThemeCollection_mapThemes project)
      ++ (if decide (mMapThemes self = mapThemeCollection_mapThemes project) then []
          else [beginResetModel; endResetModel; mapThemesReloaded]))%list,
     {| mProject := Some project; mMapThemes := mapThemeCollection_mapThemes project;
        mActiveThemeIndex := mActiveThemeIndex self |}).
Proof.
  intros Hproject. unfold reloadMapThemes.
  rewrite Hproject, collect_themes_spec. cbn [app].
  destruct (decide (mMapThemes self = mapThemeCollection_mapThemes project)) as [Heq | Hne].
  - rewrite decide_False by (intros Hne; contradiction (Hne Heq)).
    rewrite app_nil_r. destruct self as [p themes active]. cbn in *. congruence.
  - rewrite decide_True by exact Hne. reflexivity.
Qed.

(** X1. [rowAccordingName] gives the place of the first theme with that
    name, counted from 0, and the default index given by the caller when no
    theme has that name. *)
Theorem rowAccordingName_spec (self : t) (name : QString) (defaultIndex : Z) :
  (∀ before after,
     mMapThemes self = (before ++ name :: after)%list → name ∉ before →
     rowAccordingName self name defaultIndex = Z.of_nat (length before))
  ∧ (name ∉ mMapThemes self → rowAccordingName self name defaultIndex = defaultIndex).
Proof.
  split.
  - intros before after. apply rowAccordingName_first.
  - apply rowAccordingName_absent.
Qed.

(** X2. [data] never fails. It answers with a string exactly for the role
    [Name] and a row from 0 to [rowCount] - 1, and the string is then the
    theme at that row; for every other role and row the answer is the
    invalid [QVariant]. The column of the index is not looked at. *)
Theorem data_spec (self : t) (idx parent : QModelIndex) (role : Z) :
  ∃ answer,
    data self idx role = Run.Returned answer
    ∧ (answer ≠ QVariant_invalid ↔ role = Name ∧ 0 <= row idx < rowCount self parent)
    ∧ (∀ s, answer = QVariant_string s → mMapThemes self !! Z.to_nat (row idx) = Some s).
Proof.
  unfold data, rowCount.
  destruct (Z.ltb_spec (row idx) 0) as [Hneg | Hnonneg]; cbn [orb].
  { exists QVariant_invalid. split; [reflexivity |]. split; [| discriminate].
    split; [intros Hne; contradiction Hne; reflexivity | intros [_ Hrange]; lia]. }
  destruct (Z.geb_spec (row idx) (count (mMapThemes self))) as [Hbig | Hsmall].
  { exists QVariant_invalid. split; [reflexivity |]. split; [| discriminate].
    split; [intros Hne; contradiction Hne; reflexivity | intros [_ Hrange]; lia]. }
  destruct (decide (role = Name)) as [Hrole | Hrole].
  - unfold count in Hsmall.
    destruct (lookup_lt_is_Some_2 (mMapThemes self) (Z.to_nat (row idx)) ltac:(lia))
      as [name Hname].
    pose proof (QList_at_lookup _ _ _ Hname) as Hat.
    rewrite Z2Nat.id in Hat by lia.
    exists (QVariant_string name). split; [rewrite Hat; reflexivity |]. split.
    + split; [intros _; split; [exact Hrole | unfold count; lia] | discriminate].
    + intros s Hs. injection Hs as <-. exact Hname.
  - exists QVariant_invalid. split; [reflexivity |]. split; [| discriminate].
    split; [intros Hne; contradiction Hne; reflexivity | intros [Heq _]; contradiction].
Qed.

(** X3. Name to row and back: for a name that is among the themes, the row
    [rowAccordingName] gives, made into an index by [index] with any column
    and parent, shows that name under the role [Name]. *)
Theorem data_rowAccordingName (self : t) (name : QString) (defaultIndex column : Z)
    (parent : QModelIndex) :
  name ∈ mMapThemes self →
  data self (index self (rowAccordingName self name defaultIndex) column parent) Name
  = Run.Returned (QVariant_string name).
Proof.
  intros Hname.
  destruct (elem_of_first _ _ Hname) as (before & after & Hsplit & Hbefore).
  rewrite (rowAccordingName_first self name defaultIndex before after Hsplit Hbefore).
  unfold data, index. cbn [row]. unfold count. rewrite Hsplit, length_app. cbn [length].
  destruct (Z.ltb_spec (Z.of_nat (length before)) 0); [lia |].
  destruct (Z.geb_spec (Z.of_nat (length before))
              (Z.of_nat (length before + S (length after)))); [lia |].
  cbn [orb]. rewrite decide_True by reflexivity.
  rewrite (QList_at_lookup _ _ name); [reflexivity |].
  rewrite lookup_app_r by lia. rewrite Nat.sub_diag. reflexivity.
Qed.

(** X4. The only role [data] answers is the one [roleNames] calls "name":
    if [data] gives a string for a role, [roleNames] maps that role to
    "name". *)
Theorem data_role_is_named (self : t) (idx : QModelIndex) (role : Z) (s : QString) :
  data self idx role = Run.Returned (QVariant_string s) →
  roleNames self !! role = Some "name".
Proof.
  unfold data.
  destruct ((row idx <? 0) || (row idx >=? count (mMapThemes self))); [discriminate |].
  destruct (decide (role = Name)) as [-> | Hrole]; [| discriminate].
  intros _. unfold roleNames. apply lookup_insert_eq.
Qed.

(** X5. [setActiveThemeIndex] goes through exactly when the model has a
    project and the index is a row of the list. It then applies the theme at
    that row on the project, signals [mapThemeChanged] with its name and
    [activeThemeIndexChanged], in that order, keeps the list, and from then
    on [activeThemeIndex] is the index given and [data] at that row shows the
    theme applied. *)
Theorem setActiveThemeIndex_spec (self : t) (activeThemeIndex : Z) :
  ((∃ self', snd (setActiveThemeIndex self activeThemeIndex) = Run.Returned self')
   ↔ 0 <= activeThemeIndex < count (mMapThemes self) ∧ mProject self ≠ None)
  ∧ ∀ self', snd (setActiveThemeIndex self activeThemeIndex) = Run.Returned self' →
      ∃ name,
        mMapThemes self !! Z.to_nat activeThemeIndex = Some name
        ∧ fst (setActiveThemeIndex self activeThemeIndex)
          = [collection_applyTheme name; mapThemeChanged name; activeThemeIndexChanged]
        ∧ MapThemesModel.activeThemeIndex self' = activeThemeIndex
        ∧ mMapThemes self' = mMapThemes self
        ∧ mProject self' = mProject self
        ∧ data self' (index self' (MapThemesModel.activeThemeIndex self') 0 QModelIndex_invalid)
            Name
          = Run.Returned (QVariant_string name).
Proof.
  unfold setActiveThemeIndex, applyTheme. cbn [mMapThemes mProject].
  destruct (decide (0 <= activeThemeIndex < count (mMapThemes self))) as [Hrange | Hrange].
  2: { rewrite (QList_at_out_of_range _ _ Hrange). cbn [snd]. split.
       - split; [intros [self' Hself']; discriminate Hself' | intros [H _]; contradiction].
       - intros self' Hself'. discriminate Hself'. }
  unfold count in Hrange.
  destruct (lookup_lt_is_Some_2 (mMapThemes self) (Z.to_nat activeThemeIndex) ltac:(lia))
    as [name Hname].
  pose proof (QList_at_lookup _ _ _ Hname) as Hat.
  rewrite Z2Nat.id in Hat by lia. rewrite Hat.
  destruct (mProject self) as [project |] eqn:Hproject; cbn [snd fst].
  - split.
    + split; [intros _; split; [unfold count; lia | discriminate] | intros _; eexists; reflexivity].
    + intros self' Hself'. injection Hself' as <-. exists name.
      unfold MapThemesModel.activeThemeIndex. cbn [mMapThemes mProject mActiveThemeIndex].
      repeat split; try assumption.
      unfold data, index. cbn [row mMapThemes].
      destruct (Z.ltb_spec activeThemeIndex 0); [lia |].
      destruct (Z.geb_spec activeThemeIndex (count (mMapThemes self)));
        [unfold count in *; lia |].
      cbn [orb]. rewrite decide_True by reflexivity. rewrite Hat. reflexivity.
  - split.
    + split; [intros [self' Hself']; discriminate Hself' | intros [_ H]; contradiction H; reflexivity].
    + intros self' Hself'. discriminate Hself'.
Qed.

(** X6. The check [row >= 0] of [updateMapTheme] never holds it back, since
    the default row it asks for is 0: [updateMapTheme] is
    [setActiveThemeIndex] at the first row with that name, and at row 0 when
    no theme has the name. So an unknown name makes the first theme of the
    list the active one, and on an empty list the call runs into
    [QList::at] out of range. *)
Theorem updateMapTheme_spec (self : t) (name : QString) :
  (∀ before after,
     mMapThemes self = (before ++ name :: after)%list → name ∉ before →
     updateMapTheme self name = setActiveThemeIndex self (Z.of_nat (length before)))
  ∧ (name ∉ mMapThemes self → updateMapTheme self name = setActiveThemeIndex self 0)
  ∧ (∀ first rest project,
       name ∉ mMapThemes self → mMapThemes self = first :: rest →
       mProject self = Some project →
       updateMapTheme self name
       = ([collection_applyTheme first; mapThemeChanged first; activeThemeIndexChanged],
          Run.Returned {| mProject := Some project; mMapThemes := first :: rest;
                          mActiveThemeIndex := 0 |}))
  ∧ (mMapThemes self = [] →
       updateMapTheme self name = ([], Run.Aborted "QList::at: index out of range")).
Proof.
  assert (∀ before after,
            mMapThemes self = (before ++ name :: after)%list → name ∉ before →
            updateMapTheme self name = setActiveThemeIndex self (Z.of_nat (length before)))
    as Hknown.
  { intros before after Hsplit Hbefore. unfold updateMapTheme.
    rewrite (rowAccordingName_first self name 0 before after Hsplit Hbefore).
    destruct (Z.geb_spec (Z.of_nat (length before)) 0); [reflexivity | lia]. }
  assert (name ∉ mMapThemes self → updateMapTheme self name = setActiveThemeIndex self 0)
    as Hunknown.
  { intros Habsent. unfold updateMapTheme.
    rewrite (rowAccordingName_absent self name 0 Habsent). reflexivity. }
  split; [exact Hknown |]. split; [exact Hunknown |]. split.
  - intros first rest project Habsent Hthemes Hproject.
    rewrite (Hunknown Habsent). unfold setActiveThemeIndex, applyTheme.
    cbn [mMapThemes mProject]. rewrite Hthemes, Hproject. reflexivity.
  - intros Hempty. rewrite Hunknown by (rewrite Hempty; apply not_elem_of_nil).
    unfold setActiveThemeIndex. cbn [mMapThemes]. rewrite Hempty. reflexivity.
Qed.

(** X7. After [reloadMapThemes] on a model with a project the list is the
    list of themes of the project, in its order, and the project and the
    active index are as before, also when the active index is no longer a
    row of the list. What it emits is, in this order: one debug line for
    each theme of the project, and then, when the list differs from the one
    held before and only then, [beginResetModel], [endResetModel] and
    [mapThemesReloaded]. *)
Theorem reloadMapThemes_spec (self : t) (project : QgsProject) :
  mProject self = Some project →
  mapThemes (snd (reloadMapThemes self)) = mapThemeCollection_mapThemes project
  ∧ mProject (snd (reloadMapThemes self)) = mProject self
  ∧ activeThemeIndex (snd (reloadMapThemes self)) = activeThemeIndex self
  ∧ fst (reloadMapThemes self)
    = (map (λ name, qDebug ["Found map theme: "; name]) (mapThemeCollection_mapThemes project)
       ++ (if decide (mMapThemes self = mapThemeCollection_mapThemes project) then []
           else [beginResetModel; endResetModel; mapThemesReloaded]))%list.
Proof.
  intros Hproject. rewrite (reloadMapThemes_run self project Hproject).
  unfold mapThemes, activeThemeIndex. cbn [fst snd mMapThemes mProject mActiveThemeIndex].
  rewrite Hproject. repeat split.
Qed.

(** X8. Reloading twice is reloading once: the second [reloadMapThemes]
    leaves the model as it is and signals nothing, it only writes the debug
    line of each theme again. A model without a project is left as it is,
    with nothing written. *)
Theorem reloadMapThemes_again (self : t) :
  (∀ project, mProject self = Some project →
     reloadMapThemes (snd (reloadMapThemes self))
     = (map (λ name, qDebug ["Found map theme: "; name])
          (mapThemeCollection_mapThemes project),
        snd (reloadMapThemes self)))
  ∧ (mProject self = None → reloadMapThemes self = ([], self)).
Proof.
  split.
  - intros project Hproject.
    rewrite (reloadMapThemes_run self project Hproject). cbn [snd].
    rewrite (reloadMapThemes_run
               {| mProject := Some project; mMapThemes := mapThemeCollection_mapThemes project;
                  mActiveThemeIndex := mActiveThemeIndex self |} project eq_refl).
    cbn [mMapThemes mActiveThemeIndex].
    rewrite decide_True by reflexivity. rewrite app_nil_r. reflexivity.
  - intros Hnone. unfold reloadMapThemes. rewrite Hnone. reflexivity.
Qed.

(** X9. [setMapThemes] makes the list given the list of the model, keeps
    the project and the active index, and signals [mapThemesReloaded], with
    no reset of the model, exactly when the list given differs from the one
    held; setting the same list again signals nothing. *)
Theorem setMapThemes_spec (self : t) (themes : list QString) :
  mapThemes (snd (setMapThemes self themes)) = themes
  ∧ mProject (snd (setMapThemes self themes)) = mProject self
  ∧ activeThemeIndex (snd (setMapThemes self themes)) = activeThemeIndex self
  ∧ fst (setMapThemes self themes)
    = (if decide (mMapThemes self = themes) then [] else [mapThemesReloaded])
  ∧ setMapThemes (snd (setMapThemes self themes)) themes
    = ([], snd (setMapThemes self themes)).
Proof.
  unfold mapThemes, activeThemeIndex.
  destruct (decide (mMapThemes self = themes)) as [Heq | Hne].
  - assert (setMapThemes self themes = ([], self)) as ->.
    { unfold setMapThemes. rewrite decide_True by exact Heq. reflexivity. }
    cbn [fst snd]. repeat split; try assumption.
    unfold setMapThemes. rewrite decide_True by exact Heq. reflexivity.
  - assert (setMapThemes self themes
            = ([mapThemesReloaded],
               {| mProject := mProject self; mMapThemes := themes;
                  mActiveThemeIndex := mActiveThemeIndex self |})) as ->.
    { unfold setMapThemes. rewrite decide_False by exact Hne. reflexivity. }
    cbn [fst snd mMapThemes mProject mActiveThemeIndex]. repeat split.
    unfold setMapThemes. cbn [mMapThemes].
    rewrite decide_True by reflexivity. reflexivity.
Qed.

(** X10. A model made for a project starts with the themes of that project
    and the initial active index, whatever the themes are, and signals
    [mapThemesReloaded] exactly when the project has a theme; a model made
    without a project starts empty and signals nothing. *)
Theorem new_spec (project : option QgsProject) :
  (∀ p, project = Some p →
     snd (new project)
     = {| mProject := Some p; mMapThemes := mapThemeCollection_mapThemes p;
          mActiveThemeIndex := mActiveThemeIndex_init |}
     ∧ (mapThemesReloaded ∈ fst (new project) ↔ mapThemeCollection_mapThemes p ≠ []))
  ∧ (project = None →
     new project
     = ([], {| mProject := None; mMapThemes := []; mActiveThemeIndex := mActiveThemeIndex_init |})).
Proof.
  split.
  - intros p ->. unfold new.
    rewrite (reloadMapThemes_run
               {| mProject := Some p; mMapThemes := [];
                  mActiveThemeIndex := mActiveThemeIndex_init |} p eq_refl).
    cbn [fst snd mMapThemes mActiveThemeIndex]. split; [reflexivity |].
    destruct (decide ([] = mapThemeCollection_mapThemes p)) as [Heq | Hne].
    + rewrite app_nil_r. split; [| congruence].
      intros Hin. apply list_elem_of_fmap in Hin as (name & Hname & _). discriminate Hname.
    + split; [congruence |]. intros _. apply elem_of_app. right. repeat constructor.
  - intros ->. reflexivity.
Qed.

End ThemesModel.

(** ** More on the manifest reader *)

Section ReaderMore.

Context `{env : Env}.

Lemma toInt_fits (v : QJsonValue) : INT_MIN <= toInt v <= INT_MAX.
Proof.
  assert (INT_MIN <= 0 <= INT_MAX) as Hzero by (unfold INT_MIN, INT_MAX; lia).
  destruct v; cbn; try exact Hzero.
  destruct (fits_int (truncate d)) eqn:Hfits; cbn [andb]; [| exact Hzero].
  destruct (Qeq_bool (inject_Z (truncate d)) d); [| exact Hzero].
  unfold fits_int in Hfits. apply andb_true_iff in Hfits as [Hlo Hhi].
  apply Z.leb_le in Hlo, Hhi. split; assumption.
Qed.

Lemma find_file_first (before after : list MerginFile.t) (merginFile : MerginFile.t)
    (filePath : QString) :
  Forall (λ other, MerginFile.path other ≠ filePath) before →
  MerginFile.path merginFile = filePath →
  MerginProjectMetadata.find_file (before ++ merginFile :: after) filePath = Some merginFile.
Proof.
  intros Hbefore Hpath. induction Hbefore as [| other before Hother _ IH]; cbn.
  - rewrite decide_True by exact Hpath. reflexivity.
  - rewrite decide_False by exact Hother. exact IH.
Qed.

Lemma find_file_none (files : list MerginFile.t) (filePath : QString) :
  Forall (λ other, MerginFile.path other ≠ filePath) files →
  MerginProjectMetadata.find_file files filePath = None.
Proof.
  intros Hnone. induction Hnone as [| other rest Hother _ IH]; cbn; [reflexivity |].
  rewrite decide_False by exact Hother. exact IH.
Qed.

Lemma find_file_none_inv (files : list MerginFile.t) (filePath : QString) :
  MerginProjectMetadata.find_file files filePath = None →
  Forall (λ other, MerginFile.path other ≠ filePath) files.
Proof.
  induction files as [| other rest IH]; cbn; [constructor |].
  destruct (decide (MerginFile.path other = filePath)) as [Hpath | Hpath]; [discriminate |].
  intros Hrest. constructor; [exact Hpath | exact (IH Hrest)].
Qed.

Lemma find_file_some (files : list MerginFile.t) (filePath : QString) (merginFile : MerginFile.t) :
  MerginProjectMetadata.find_file files filePath = Some merginFile →
  merginFile ∈ files ∧ MerginFile.path merginFile = filePath.
Proof.
  induction files as [| other rest IH]; cbn; [discriminate |].
  destruct (decide (MerginFile.path other = filePath)) as [Hpath | Hpath].
  - intros [= <-]. split; [left | exact Hpath].
  - intros Hrest. destruct (IH Hrest) as [Hin Hp]. split; [right; exact Hin | exact Hp].
Qed.

(** X11. What every record of a manifest returned by [fromJson] satisfies,
    whatever the document says: its size is in the range of [int], and its
    time is either the invalid date-time or a time in UTC. *)
Theorem fromJson_records_invariant (data : QByteArray) (project : MerginProjectMetadata.t) :
  Run.returned (MerginProjectMetadata.fromJson data) = Some project →
  Forall (λ merginFile,
            INT_MIN <= MerginFile.size merginFile <= INT_MAX
            ∧ (MerginFile.mtime merginFile = InvalidDateTime
               ∨ ∃ ms, MerginFile.mtime merginFile = DateTime ms UTC))
         (MerginProjectMetadata.files project).
Proof.
  intros Hproject.
  destruct (QJsonDocument_fromJson data) as [| a | docObj] eqn:Hdoc.
  1, 2: rewrite fromJson_not_object in Hproject by (rewrite Hdoc; reflexivity);
        injection Hproject as <-; constructor.
  destruct (QT_NO_DEBUG || isArray (value docObj "files")) eqn:Hassert.
  2: { rewrite (fromJson_assertion data docObj Hdoc Hassert) in Hproject.
       discriminate Hproject. }
  rewrite (fromJson_object data docObj Hdoc Hassert) in Hproject.
  injection Hproject as <-. cbn [MerginProjectMetadata.files].
  apply Forall_fmap, Forall_forall. intros it _. cbn. split; [apply toInt_fits |].
  destruct (QDateTime_fromString _ _) as [| ms spec]; [left | right; exists ms]; reflexivity.
Qed.

(** X12. The reader looks at four members of the document and at four
    members of each file and at nothing else: two file objects that agree on
    "checksum", "path", "size" and "mtime" give the same record, and two
    documents whose objects agree on "files", "name", "namespace" and
    "version" give the same result. *)
Theorem fromJson_members_read (data data' : QByteArray) (docObj docObj' : QJsonObject) :
  (∀ merginFileInfo merginFileInfo' : QJsonObject,
     (∀ key, key ∈ ["checksum"; "path"; "size"; "mtime"] →
        merginFileInfo !! key = merginFileInfo' !! key) →
     MerginFile.fromJsonObject merginFileInfo = MerginFile.fromJsonObject merginFileInfo')
  ∧ (QJsonDocument_fromJson data = DocObject docObj →
     QJsonDocument_fromJson data' = DocObject docObj' →
     (∀ key, key ∈ ["files"; "name"; "namespace"; "version"] →
        docObj !! key = docObj' !! key) →
     MerginProjectMetadata.fromJson data = MerginProjectMetadata.fromJson data').
Proof.
  split.
  - intros o o' Hagree. unfold MerginFile.fromJsonObject, value, QString.
    rewrite (Hagree "checksum"), (Hagree "path"), (Hagree "size"), (Hagree "mtime")
      by (repeat constructor). reflexivity.
  - intros Hdoc Hdoc' Hagree.
    assert (∀ key, key ∈ ["files"; "name"; "namespace"; "version"] →
              value docObj key = value docObj' key) as Hvalue.
    { intros key Hkey. unfold value, QString. rewrite (Hagree key Hkey). reflexivity. }
    destruct (QT_NO_DEBUG || isArray (value docObj "files")) eqn:Hassert.
    + rewrite (fromJson_object data docObj Hdoc Hassert).
      rewrite (Hvalue "files") in Hassert by (repeat constructor).
      rewrite (fromJson_object data' docObj' Hdoc' Hassert).
      rewrite (Hvalue "files"), (Hvalue "name"), (Hvalue "namespace"), (Hvalue "version")
        by (repeat constructor). reflexivity.
    + rewrite (fromJson_assertion data docObj Hdoc Hassert).
      rewrite (Hvalue "files") in Hassert by (repeat constructor).
      rewrite (fromJson_assertion data' docObj' Hdoc' Hassert). reflexivity.
Qed.

(** X13. When no two files of a manifest have the same path, [fileInfo]
    with the path of any of its files returns that very file, with nothing
    written to the debug stream. *)
Theorem fileInfo_unique_paths (project : MerginProjectMetadata.t) (merginFile : MerginFile.t) :
  NoDup (map MerginFile.path (MerginProjectMetadata.files project)) →
  merginFile ∈ MerginProjectMetadata.files project →
  MerginProjectMetadata.fileInfo project (MerginFile.path merginFile)
  = ([], Run.Returned merginFile).
Proof.
  intros Hnodup Hin. unfold MerginProjectMetadata.fileInfo.
  apply list_elem_of_split in Hin as (before & after & Hsplit).
  rewrite Hsplit in Hnodup |- *.
  rewrite (find_file_first before after merginFile); [reflexivity | | reflexivity].
  rewrite fmap_app in Hnodup. apply NoDup_app in Hnodup as (_ & Hdisjoint & _).
  apply Forall_forall. intros other Hother Hsame.
  apply (Hdisjoint (MerginFile.path other)).
  - apply list_elem_of_fmap. exists other. split; [reflexivity | exact Hother].
  - cbn. rewrite Hsame. left.
Qed.

(** X14. [fileInfo] always returns a record. Nothing is written to the debug
    stream exactly when some file has the path asked for, and the record is
    then one of the files, with that path; otherwise the path of the record is
    empty. So for the empty path the record returned has an empty path
    whether a file was found or not. *)
Theorem fileInfo_found_or_empty (project : MerginProjectMetadata.t) (filePath : QString) :
  ∃ merginFile,
    Run.returned (MerginProjectMetadata.fileInfo project filePath) = Some merginFile
    ∧ (Run.debug_output (MerginProjectMetadata.fileInfo project filePath) = []
       ↔ ∃ other, other ∈ MerginProjectMetadata.files project
                  ∧ MerginFile.path other = filePath)
    ∧ (Run.debug_output (MerginProjectMetadata.fileInfo project filePath) = [] →
       merginFile ∈ MerginProjectMetadata.files project
       ∧ MerginFile.path merginFile = filePath)
    ∧ (Run.debug_output (MerginProjectMetadata.fileInfo project filePath) ≠ [] →
       MerginFile.path merginFile = "")
    ∧ (filePath = "" → MerginFile.path merginFile = "").
Proof.
  unfold MerginProjectMetadata.fileInfo.
  destruct (MerginProjectMetadata.find_file (MerginProjectMetadata.files project) filePath)
    as [merginFile |] eqn:Hfind.
  - destruct (find_file_some _ _ _ Hfind) as [Hin Hpath].
    exists merginFile. cbn. split; [reflexivity |]. split; [| split; [| split]].
    + split; [intros _; exists merginFile; split; assumption | reflexivity].
    + intros _. split; assumption.
    + intros Hne. contradiction Hne. reflexivity.
    + intros ->. exact Hpath.
  - exists MerginFile.init. cbn. split; [reflexivity |]. split; [| split; [| split]].
    + split; [discriminate |]. intros (other & Hin & Hpath). exfalso.
      pose proof (find_file_none_inv _ _ Hfind) as Hnone.
      rewrite Forall_forall in Hnone. exact (Hnone other Hin Hpath).
    + discriminate.
    + reflexivity.
    + reflexivity.
Qed.

(** Reading back a written number of either sign. *)
Lemma scan_number_number (n : Z) : scan_number (QString_number n) = Some n.
Proof.
  destruct (Z.ltb_spec n 0) as [Hneg | Hnonneg]; [| apply scan_number_nonneg; exact Hnonneg].
  unfold QString_number. rewrite (proj2 (Z.ltb_lt n 0) Hneg).
  destruct (scan_digits_number _ (- n) (log2_fuel (- n) ltac:(lia)))
    as (d & l & Hd & Hcode & Hscan).
  unfold scan_number, code_points. cbn [code_points_from].
  change (N_of_ascii "-" <? 128)%N with true. cbn match.
  fold (code_points (number_digits (Z.to_nat (Z.log2 (- n))) (- n) EmptyString)).
  rewrite Hcode. cbn [skip_space]. change (isSpace (N_of_ascii "-")) with false. cbn match.
  unfold scan_sign at 1. change ((N_of_ascii "-" =? 45)%N || (N_of_ascii "-" =? 8722)%N) with true.
  cbn match. rewrite digit_value_char, Hscan by exact Hd. cbn. f_equal. lia.
Qed.

(** X15. The version string made of the letter v and a decimal number, of
    either sign, gives that number as the version when it is in the range of
    [int], so negative versions are taken as they are, and 0 when it is
    outside that range. *)
Theorem fromJson_version_number (data : QByteArray) (docObj : QJsonObject) (n : Z) :
  QJsonDocument_fromJson data = DocObject docObj →
  QT_NO_DEBUG || isArray (value docObj "files") = true →
  toString (value docObj "version") = String "v" (QString_number n) →
  ∃ project,
    Run.returned (MerginProjectMetadata.fromJson data) = Some project
    ∧ MerginProjectMetadata.version project = (if fits_int n then n else 0).
Proof.
  intros Hdoc Hassert Hversion.
  rewrite (fromJson_object data docObj Hdoc Hassert). eexists. split; [reflexivity |].
  cbn [MerginProjectMetadata.version]. rewrite Hversion.
  unfold read_version. cbn. unfold QString_toInt.
  rewrite scan_number_number. reflexivity.
Qed.

(** X16. In a build without assertions, an object whose "files" member is
    absent or not an array gives a manifest with no files, with nothing
    written to the debug stream, and its name, namespace and version are read
    as for any object. *)
Theorem fromJson_without_files (data : QByteArray) (docObj : QJsonObject) :
  QT_NO_DEBUG = true →
  QJsonDocument_fromJson data = DocObject docObj →
  isArray (value docObj "files") = false →
  MerginProjectMetadata.fromJson data =
    ([], Run.Returned
           {| MerginProjectMetadata.name := toString (value docObj "name");
              MerginProjectMetadata.projectNamespace := toString (value docObj "namespace");
              MerginProjectMetadata.files := [];
              MerginProjectMetadata.version := read_version (toString (value docObj "version")) |}).
Proof.
  intros Hbuild Hdoc Harray.
  rewrite (fromJson_object data docObj Hdoc) by (rewrite Hbuild; reflexivity).
  destruct (value docObj "files"); try reflexivity. discriminate Harray.
Qed.

(** X17. Parsing a document and asking for a path: on an object with an
    array of files, [fileInfo] on the manifest returned gives the record read
    from the first element whose "path" string is the path asked for, and the
    default record, with a line on the debug stream, when no element has that
    "path". *)
Theorem fromJson_then_fileInfo (data : QByteArray) (docObj : QJsonObject)
    (vFilesArray : QJsonArray) (filePath : QString) :
  QJsonDocument_fromJson data = DocObject docObj →
  value docObj "files" = JArray vFilesArray →
  ∃ project,
    Run.returned (MerginProjectMetadata.fromJson data) = Some project
    ∧ (∀ before it after,
         vFilesArray = (before ++ it :: after)%list →
         Forall (λ other, toString (value (toObject other) "path") ≠ filePath) before →
         toString (value (toObject it) "path") = filePath →
         MerginProjectMetadata.fileInfo project filePath = ([], Run.Returned (readFile it)))
    ∧ (Forall (λ other, toString (value (toObject other) "path") ≠ filePath) vFilesArray →
       MerginProjectMetadata.fileInfo project filePath
       = ([["requested fileInfo() for non-existant file! "; filePath]],
          Run.Returned MerginFile.init)).
Proof.
  intros Hdoc Hfiles. rewrite (fromJson_files_array _ _ _ Hdoc Hfiles).
  eexists. split; [reflexivity |].
  unfold MerginProjectMetadata.fileInfo. cbn [MerginProjectMetadata.files]. split.
  - intros before it after -> Hbefore Hpath.
    rewrite map_app. cbn [map].
    rewrite (find_file_first (map readFile before) (map readFile after) (readFile it) filePath);
      [reflexivity | | exact Hpath].
    apply Forall_fmap. exact Hbefore.
  - intros Hnone. rewrite find_file_none; [reflexivity |].
    apply Forall_fmap. exact Hnone.
Qed.

(** X18. Where a size other than 0 comes from: the record read from a file
    object has the size [z], for [z] other than 0, exactly when the "size"
    member is a number equal to the whole number [z] and [z] is in the range
    of [int]. A size that is absent, a string, a fraction or outside that
    range is read as 0. *)
Theorem fromJsonObject_size (merginFileInfo : QJsonObject) (z : Z) :
  z ≠ 0 →
  (MerginFile.size (MerginFile.fromJsonObject merginFileInfo) = z
   ↔ ∃ d, merginFileInfo !! "size" = Some (JDouble d)
          ∧ Qeq d (inject_Z z) ∧ INT_MIN <= z <= INT_MAX).
Proof.
  intros Hz. cbn [MerginFile.fromJsonObject MerginFile.size]. split.
  - unfold value, QString. destruct (merginFileInfo !! "size") as [v |] eqn:Hv;
      [| cbn; intros H; lia].
    cbn [default from_option id].
    destruct v as [| b | d | s | a | o |]; cbn; try (intros H; lia).
    destruct (fits_int (truncate d)) eqn:Hfits; cbn [andb]; [| intros H; lia].
    destruct (Qeq_bool (inject_Z (truncate d)) d) eqn:Hwhole; [| intros H; lia].
    intros <-. exists d. split; [reflexivity |].
    apply Qeq_bool_iff in Hwhole. split; [symmetry; exact Hwhole |].
    unfold fits_int in Hfits. apply andb_true_iff in Hfits as [Hlo Hhi].
    apply Z.leb_le in Hlo, Hhi. split; assumption.
  - intros (d & Hsize & Hd & Hlo & Hhi).
    rewrite (value_present _ _ _ Hsize). apply toInt_whole; [exact Hd |].
    unfold fits_int. apply andb_true_iff. split; apply Z.leb_le; assumption.
Qed.

End ReaderMore.

(** ** The handler of attached images: when a file is removed *)

Section ImageRemoval.

Import ExternalResourceBundle.

Ltac no_removal :=
  let H := fresh "Hin" in
  intros H;
  repeat (apply elem_of_cons in H as [H | H]; [discriminate H |]);
  inversion H.

Lemma set_sourceToDelete_pending (self : t) (widget : nat) (w : Widget) (path p : string) :
  pending (set_sourceToDelete self widget w path) p → p = path ∨ pending self p.
Proof.
  intros (widget' & w' & Hw' & Hp). cbn [set_sourceToDelete widgets] in Hw'.
  destruct (decide (widget = widget')) as [<- | Hne].
  - rewrite lookup_insert_eq in Hw'. injection Hw' as <-. left. symmetry. exact Hp.
  - rewrite lookup_insert_ne in Hw' by exact Hne. right. exists widget', w'. split; assumption.
Qed.

(** One step. A file is removed only by a save, and only if a widget held
    it. *)
Lemma step_removes (self : t) (a : action) (p : string) :
  removeFile p ∈ fst (step self a) → pending self p ∧ ∃ widget, a = FormSave widget.
Proof.
  destruct a as [isAndroid isIos widget | fileExists widget imagePath | | | | widget | widget];
    cbn [step].
  - unfold chooseImage. destruct isAndroid; [cbn; no_removal |].
    destruct isIos; [| cbn; no_removal].
    cbn [widgets]. destruct (widgets self !! widget); cbn; no_removal.
  - unfold removeImage. destruct fileExists; [cbn; no_removal |].
    destruct (widgets self !! widget); cbn; no_removal.
  - unfold onYes. destruct (held self) as [[widget w] |]; cbn; no_removal.
  - unfold onNo. destruct (held self) as [[widget w] |]; cbn; no_removal.
  - cbn. no_removal.
  - unfold onFormSave. destruct (widgets self !! widget) as [w |] eqn:Hw; [| cbn; no_removal].
    cbn [fst]. intros Hin. apply list_elem_of_singleton in Hin. injection Hin as ->.
    split; [exists widget, w; split; [exact Hw | reflexivity] | exists widget; reflexivity].
  - unfold onFormCancel. destruct (widgets self !! widget); cbn; no_removal.
Qed.

(** A widget comes to hold only the path the dialog asks about, and only at
    the answer Yes. *)
Lemma step_pending (self : t) (a : action) (p : string) :
  pending (snd (step self a)) p →
  p = "" ∨ pending self p ∨ (a = Yes ∧ p = imageDeleteDialog_imagePath self).
Proof.
  destruct a as [isAndroid isIos widget | fileExists widget imagePath | | | | widget | widget];
    cbn [step].
  - unfold chooseImage. destruct isAndroid; [cbn; tauto |].
    destruct isIos; [| cbn; tauto].
    cbn [widgets]. destruct (widgets self !! widget); cbn; tauto.
  - unfold removeImage. destruct fileExists; [cbn; tauto |].
    destruct (widgets self !! widget); cbn; tauto.
  - unfold onYes. destruct (held self) as [[widget w] |]; cbn [snd]; [| tauto].
    intros Hp.
    assert (pending (set_sourceToDelete self widget w (imageDeleteDialog_imagePath self)) p)
      as Hp' by exact Hp.
    destruct (set_sourceToDelete_pending _ _ _ _ _ Hp') as [-> | Hold]; [| tauto].
    right. right. split; reflexivity.
  - unfold onNo. destruct (held self) as [[widget w] |]; cbn; tauto.
  - cbn. tauto.
  - unfold onFormSave. destruct (widgets self !! widget) as [w |]; cbn [snd]; [| tauto].
    intros Hp. destruct (set_sourceToDelete_pending _ _ _ _ _ Hp); tauto.
  - unfold onFormCancel. destruct (widgets self !! widget) as [w |]; cbn [snd]; [| tauto].
    intros Hp. destruct (set_sourceToDelete_pending _ _ _ _ _ Hp); tauto.
Qed.

(** The dialog asks about a new path only after [removeImage] for a file that
    exists. *)
Lemma step_asked (self : t) (a : action) :
  imageDeleteDialog_imagePath (snd (step self a))
  = asked_after (imageDeleteDialog_imagePath self) a.
Proof.
  destruct a as [isAndroid isIos widget | fileExists widget imagePath | | | | widget | widget];
    cbn [step asked_after].
  - unfold chooseImage. destruct isAndroid; [reflexivity |].
    destruct isIos; [| reflexivity].
    cbn [widgets]. destruct (widgets self !! widget); reflexivity.
  - unfold removeImage. destruct fileExists; [reflexivity |].
    destruct (widgets self !! widget); reflexivity.
  - unfold onYes. destruct (held self) as [[widget w] |]; reflexivity.
  - unfold onNo. destruct (held self) as [[widget w] |]; reflexivity.
  - reflexivity.
  - unfold onFormSave. destruct (widgets self !! widget); reflexivity.
  - unfold onFormCancel. destruct (widgets self !! widget); reflexivity.
Qed.

Lemma run_cons (self : t) (a : action) (rest : list action) :
  run self (a :: rest)
  = ((fst (step self a) ++ fst (run (snd (step self a)) rest))%list,
     snd (run (snd (step self a)) rest)).
Proof.
  cbn [run]. destruct (step self a) as [out self']. cbn [fst snd].
  destruct (run self' rest) as [out' final]. reflexivity.
Qed.

Lemma run_removes_saved (self : t) (actions : list action) (p : string) :
  removeFile p ∈ fst (run self actions) → ∃ widget, FormSave widget ∈ actions.
Proof.
  revert self. induction actions as [| a rest IH]; intros self.
  - cbn. intros Hin. inversion Hin.
  - rewrite run_cons. cbn [fst]. intros Hin. apply elem_of_app in Hin as [Hin | Hin].
    + destruct (step_removes self a p Hin) as [_ [widget ->]]. exists widget. left.
    + destruct (IH _ Hin) as [widget Hw]. exists widget. right. exact Hw.
Qed.

(** X19. Whatever the form and the user do, in whatever order, and whether or
    not some of the calls fail, a call of [removeFile] on a path other than
    the empty one is a call on a path that some widget held for deletion at
    the start, or on the path the dialog was asking about when the user
    answered Yes, with a save of the form after that answer. The path the
    dialog asks about is the one of the last [removeImage] for a file that
    exists. *)
Theorem run_removes_confirmed (self : t) (actions : list action) (p : string) :
  removeFile p ∈ fst (run self actions) →
  p = ""
  ∨ pending self p
  ∨ ∃ before after,
      actions = (before ++ Yes :: after)%list
      ∧ asked_path (imageDeleteDialog_imagePath self) before = p
      ∧ ∃ widget, FormSave widget ∈ after.
Proof.
  revert self. induction actions as [| a rest IH]; intros self.
  - cbn. intros Hin. inversion Hin.
  - rewrite run_cons. cbn [fst]. intros Hin. apply elem_of_app in Hin as [Hin | Hin].
    { right. left. exact (proj1 (step_removes self a p Hin)). }
    destruct (IH _ Hin) as [-> | [Hp | (before & after & -> & Hasked & Hsave)]].
    + left. reflexivity.
    + destruct (step_pending self a p Hp) as [-> | [Hold | [-> ->]]];
        [left; reflexivity | right; left; exact Hold |].
      right. right. exists [], rest. split; [reflexivity |]. split; [reflexivity |].
      exact (run_removes_saved _ _ _ Hin).
    + right. right. exists (a :: before), after. split; [reflexivity |].
      split; [| exact Hsave].
      rewrite step_asked in Hasked. exact Hasked.
Qed.

Ltac run_steps Hw :=
  cbn [run step fst snd];
  unfold removeImage, onYes, onNo, onRejected, onFormSave, onFormCancel, chooseImage,
    held, set_sourceToDelete;
  cbn [itemWidget widgets imageDeleteDialog_imagePath imageDeleteDialog_visible];
  repeat (first [rewrite Hw | rewrite lookup_insert_eq];
          cbn [itemWidget widgets imageDeleteDialog_imagePath imageDeleteDialog_visible
               sourceToDelete targetDir app fst snd]).

(** X20. The ways through the deletion of an image, for a widget of the
    form and a file that exists. Asked, answered Yes and saved: the widget is
    told its value is empty and the file is removed. Answered Yes and
    cancelled: the widget is told, no file is removed. Answered No and saved:
    the widget is told, and what is removed is what the widget held before,
    not the file asked about. Saved twice: the second save still calls
    [removeFile], on the empty path. Each way ends with the widget holding
    nothing for deletion. *)
Theorem removal_ways (self : t) (widget : nat) (w : Widget) (p : string) :
  widgets self !! widget = Some w →
  let cleared := Some {| sourceToDelete := ""; targetDir := targetDir w |} in
  (∃ self', run self [RemoveImage true widget p; Yes; FormSave widget]
            = ([valueChanged widget "" false; removeFile p], self')
            ∧ widgets self' !! widget = cleared)
  ∧ (∃ self', run self [RemoveImage true widget p; Yes; FormCancel widget]
              = ([valueChanged widget "" false], self')
              ∧ widgets self' !! widget = cleared)
  ∧ (∃ self', run self [RemoveImage true widget p; No; Rejected; FormSave widget]
              = ([valueChanged widget "" false; removeFile (sourceToDelete w)], self')
              ∧ widgets self' !! widget = cleared)
  ∧ (∃ self', run self [FormSave widget; FormSave widget]
              = ([removeFile (sourceToDelete w); removeFile ""], self')
              ∧ widgets self' !! widget = cleared).
Proof.
  intros Hw cleared. subst cleared. split; [| split; [| split]].
  - eexists. split; [run_steps Hw; reflexivity |].
    cbn [widgets]. apply lookup_insert_eq.
  - eexists. split; [run_steps Hw; reflexivity |].
    cbn [widgets]. apply lookup_insert_eq.
  - eexists. split; [run_steps Hw; reflexivity |].
    cbn [widgets]. apply lookup_insert_eq.
  - eexists. split; [run_steps Hw; reflexivity |].
    cbn [widgets]. apply lookup_insert_eq.
Qed.


End ImageRemoval.

(** ** The sample model of the map themes *)

Section ThemesSample.

#[local] Existing Instance MapThemesModel.sample_header.

Import MapThemesModel.

Lemma rowAccordingName_spec_witness :
  rowAccordingName sample "night" 7 = 1 ∧ rowAccordingName sample "dusk" 7 = 7.
Proof.
  destruct (rowAccordingName_spec sample "night" 7) as [Hfound _].
  destruct (rowAccordingName_spec sample "dusk" 7) as [_ Habsent].
  split.
  - apply (Hfound ["day"] ["day"]); [reflexivity |].
    apply not_elem_of_cons. split; [discriminate | apply not_elem_of_nil].
  - apply Habsent. repeat (apply not_elem_of_cons; split; [discriminate |]).
    apply not_elem_of_nil.
Defined.

Lemma data_spec_witness :
  data sample (createIndex 1 5) Name = Run.Returned (QVariant_string "night").
Proof.
  destruct (data_spec sample (createIndex 1 5) QModelIndex_invalid Name)
    as (answer & -> & Hvalid & Hstring).
  destruct answer as [| s].
  - exfalso. destruct Hvalid as [_ Hvalid]. apply Hvalid; [| reflexivity].
    split; [reflexivity | vm_compute; split; [discriminate | reflexivity]].
  - f_equal. specialize (Hstring s eq_refl). vm_compute in Hstring.
    injection Hstring as <-. reflexivity.
Defined.

Lemma data_rowAccordingName_witness :
  "day" ∈ mMapThemes sample
  ∧ data sample (index sample (rowAccordingName sample "day" 7) 3 QModelIndex_invalid) Name
    = Run.Returned (QVariant_string "day").
Proof.
  assert ("day" ∈ mMapThemes sample) as Hin by left.
  split; [exact Hin |].
  apply (data_rowAccordingName sample "day" 7 3 QModelIndex_invalid Hin).
Defined.

Lemma data_role_is_named_witness :
  data sample (createIndex 2 0) 257 = Run.Returned (QVariant_string "day")
  ∧ roleNames sample !! 257 = Some "name".
Proof.
  assert (data sample (createIndex 2 0) 257 = Run.Returned (QVariant_string "day")) as Hdata
    by reflexivity.
  split; [exact Hdata |].
  apply (data_role_is_named sample (createIndex 2 0) 257 "day" Hdata).
Defined.

Lemma setActiveThemeIndex_spec_witness :
  fst (setActiveThemeIndex sample 1)
  = [collection_applyTheme "night"; mapThemeChanged "night"; activeThemeIndexChanged]
  ∧ ¬ ∃ self', snd (setActiveThemeIndex sample 3) = Run.Returned self'.
Proof.
  destruct (setActiveThemeIndex_spec sample 1) as [Hruns Happlied].
  destruct (setActiveThemeIndex_spec sample 3) as [Hfails _].
  split.
  - destruct (proj2 Hruns) as [self' Hself'].
    { split; [vm_compute; split; [discriminate | reflexivity] | discriminate]. }
    destruct (Happlied self' Hself') as (name & Hname & Hout & _).
    vm_compute in Hname. injection Hname as <-. exact Hout.
  - intros Hsome. apply (proj1 Hfails) in Hsome as [[_ Hrange] _].
    vm_compute in Hrange. discriminate Hrange.
Defined.

Lemma updateMapTheme_spec_witness :
  updateMapTheme sample "dusk"
  = ([collection_applyTheme "day"; mapThemeChanged "day"; activeThemeIndexChanged],
     Run.Returned {| mProject := Some sample_project; mMapThemes := ["day"; "night"; "day"];
                     mActiveThemeIndex := 0 |})
  ∧ updateMapTheme sample "night" = setActiveThemeIndex sample 1
  ∧ updateMapTheme {| mProject := Some sample_project; mMapThemes := [];
                      mActiveThemeIndex := 0 |} "day"
    = ([], Run.Aborted "QList::at: index out of range").
Proof.
  destruct (updateMapTheme_spec sample "dusk") as (_ & _ & Hfirst & _).
  destruct (updateMapTheme_spec sample "night") as (Hknown & _).
  split; [| split].
  - apply (Hfirst "day" ["night"; "day"] sample_project); [| reflexivity | reflexivity].
    repeat (apply not_elem_of_cons; split; [discriminate |]). apply not_elem_of_nil.
  - apply (Hknown ["day"] ["day"]); [reflexivity |].
    apply not_elem_of_cons. split; [discriminate | apply not_elem_of_nil].
  - apply updateMapTheme_spec. reflexivity.
Defined.

(** The project has lost a theme since the list was made. *)
Lemma reloadMapThemes_spec_witness :
  let self := {| mProject := Some {| mapThemeCollection_mapThemes := ["day"] |};
                 mMapThemes := ["day"; "night"]; mActiveThemeIndex := 1 |} in
  mapThemes (snd (reloadMapThemes self)) = ["day"]
  ∧ activeThemeIndex (snd (reloadMapThemes self)) = 1
  ∧ fst (reloadMapThemes self)
    = [qDebug ["Found map theme: "; "day"]; beginResetModel; endResetModel;
       mapThemesReloaded].
Proof.
  intros self.
  destruct (reloadMapThemes_spec self {| mapThemeCollection_mapThemes := ["day"] |} eq_refl)
    as (Hthemes & _ & Hindex & Hout).
  split; [exact Hthemes |]. split; [exact Hindex |].
  rewrite Hout. reflexivity.
Defined.

Lemma reloadMapThemes_again_witness :
  reloadMapThemes (snd (reloadMapThemes sample))
  = ([qDebug ["Found map theme: "; "day"]; qDebug ["Found map theme: "; "night"];
      qDebug ["Found map theme: "; "day"]], snd (reloadMapThemes sample))
  ∧ reloadMapThemes {| mProject := None; mMapThemes := ["day"]; mActiveThemeIndex := 0 |}
    = ([], {| mProject := None; mMapThemes := ["day"]; mActiveThemeIndex := 0 |}).
Proof.
  split.
  - apply (proj1 (reloadMapThemes_again sample) sample_project). reflexivity.
  - apply (proj2 (reloadMapThemes_again _)). reflexivity.
Defined.

Lemma new_spec_witness :
  mapThemes (snd (new (Some sample_project))) = ["day"; "night"; "day"]
  ∧ mapThemesReloaded ∈ fst (new (Some sample_project))
  ∧ new None = ([], {| mProject := None; mMapThemes := []; mActiveThemeIndex := -1 |}).
Proof.
  destruct (new_spec (Some sample_project)) as [Hproject _].
  destruct (Hproject sample_project eq_refl) as [Hstate Hsignal].
  split; [rewrite Hstate; reflexivity |]. split.
  - apply Hsignal. discriminate.
  - exact (proj2 (new_spec None) eq_refl).
Defined.

End ThemesSample.

(** ** The sample form with two image fields *)

Section BundleSample.

Import ExternalResourceBundle.

Lemma run_removes_confirmed_witness :
  removeFile "/p/photos/a.jpg"
    ∈ fst (run sample [FormSave 3%nat; RemoveImage true 1%nat "/p/photos/a.jpg"; Yes;
                       FormSave 1%nat])
  ∧ ∃ before after,
      [FormSave 3%nat; RemoveImage true 1%nat "/p/photos/a.jpg"; Yes; FormSave 1%nat]
      = (before ++ Yes :: after)%list
      ∧ asked_path "" before = "/p/photos/a.jpg".
Proof.
  assert (removeFile "/p/photos/a.jpg"
            ∈ fst (run sample [FormSave 3%nat; RemoveImage true 1%nat "/p/photos/a.jpg"; Yes;
                               FormSave 1%nat]))
    as Hin by (vm_compute; right; right; left).
  split; [exact Hin |].
  destruct (run_removes_confirmed _ _ _ Hin)
    as [Hempty | [Hpending | (before & after & Hsplit & Hasked & _)]].
  - discriminate Hempty.
  - exfalso. destruct Hpending as (widget & w & Hw & Hp). unfold sample in Hw. cbn in Hw.
    destruct (decide (widget = 1%nat)) as [-> | H1].
    + rewrite lookup_insert_eq in Hw. injection Hw as <-. discriminate Hp.
    + rewrite lookup_insert_ne in Hw by congruence.
      destruct (decide (widget = 2%nat)) as [-> | H2].
      * rewrite lookup_insert_eq in Hw. injection Hw as <-. discriminate Hp.
      * rewrite lookup_insert_ne in Hw by congruence. rewrite lookup_empty in Hw.
        discriminate Hw.
  - exists before, after. split; [exact Hsplit | exact Hasked].
Defined.

Lemma removal_ways_witness :
  fst (run sample [RemoveImage true 1%nat "/p/photos/a.jpg"; Yes; FormCancel 1%nat])
  = [valueChanged 1%nat "" false].
Proof.
  destruct (removal_ways sample 1%nat {| sourceToDelete := ""; targetDir := "/p/photos" |}
              "/p/photos/a.jpg") as (_ & (self' & -> & _) & _).
  - reflexivity.
  - reflexivity.
Defined.


End BundleSample.


(** ** The sample documents, once more *)

Section ReaderSample.

#[local] Existing Instance SampleMore.env.

Lemma fromJson_records_invariant_witness :
  ∃ project,
    Run.returned (MerginProjectMetadata.fromJson Sample.odd_data) = Some project
    ∧ Forall (λ merginFile, INT_MIN <= MerginFile.size merginFile <= INT_MAX)
        (MerginProjectMetadata.files project).
Proof.
  destruct (Run.returned (MerginProjectMetadata.fromJson Sample.odd_data))
    as [project |] eqn:Hproject; [| vm_compute in Hproject; discriminate Hproject].
  exists project. split; [reflexivity |].
  eapply Forall_impl; [apply (fromJson_records_invariant Sample.odd_data project Hproject) |].
  intros merginFile [Hsize _]. exact Hsize.
Defined.

Lemma fromJson_members_read_witness :
  MerginFile.fromJsonObject SampleMore.chunked_file_json = Sample.survey_file
  ∧ MerginProjectMetadata.fromJson SampleMore.tagged_data
    = MerginProjectMetadata.fromJson Sample.survey_data.
Proof.
  destruct (fromJson_members_read SampleMore.tagged_data Sample.survey_data
              SampleMore.tagged_json (Sample.survey_json "v3")) as [Hfile Hdocument].
  split.
  - rewrite (Hfile SampleMore.chunked_file_json (toObject Sample.file_json)).
    + vm_compute; reflexivity.
    + intros key Hkey.
      repeat (apply elem_of_cons in Hkey as [-> | Hkey]; [vm_compute; reflexivity |]).
      inversion Hkey.
  - apply Hdocument.
    + vm_compute; reflexivity.
    + vm_compute; reflexivity.
    + intros key Hkey.
      repeat (apply elem_of_cons in Hkey as [-> | Hkey]; [vm_compute; reflexivity |]).
      inversion Hkey.
Defined.

Lemma fileInfo_unique_paths_witness :
  MerginProjectMetadata.fileInfo SampleMore.two_files "data.gpkg"
  = ([], Run.Returned Sample.survey_file).
Proof.
  apply (fileInfo_unique_paths SampleMore.two_files Sample.survey_file).
  - cbn. repeat constructor.
    + intros Hin. apply list_elem_of_singleton in Hin. discriminate Hin.
    + apply not_elem_of_nil.
  - right. left.
Defined.

Lemma fileInfo_found_or_empty_witness :
  MerginFile.path <$> Run.returned (MerginProjectMetadata.fileInfo Sample.twice "") = Some "".
Proof.
  destruct (fileInfo_found_or_empty Sample.twice "") as (merginFile & -> & _ & _ & _ & Hempty).
  cbn. f_equal. apply Hempty. reflexivity.
Defined.

Lemma fromJson_version_number_witness :
  MerginProjectMetadata.version
    <$> Run.returned (MerginProjectMetadata.fromJson Sample.survey_data)
  = Some 3.
Proof.
  destruct (fromJson_version_number Sample.survey_data (Sample.survey_json "v3") 3)
    as (project & -> & Hversion).
  - vm_compute; reflexivity.
  - vm_compute; reflexivity.
  - vm_compute; reflexivity.
  - cbn. f_equal. exact Hversion.
Defined.

Lemma fromJson_then_fileInfo_witness :
  ∃ project,
    Run.returned (MerginProjectMetadata.fromJson Sample.survey_data) = Some project
    ∧ MerginProjectMetadata.fileInfo project "data.gpkg" = ([], Run.Returned Sample.survey_file).
Proof.
  destruct (fromJson_then_fileInfo Sample.survey_data (Sample.survey_json "v3")
              [Sample.file_json] "data.gpkg") as (project & Hproject & Hfound & _).
  - vm_compute; reflexivity.
  - vm_compute; reflexivity.
  - exists project. split; [exact Hproject |].
    rewrite (Hfound [] Sample.file_json []).
    + vm_compute; reflexivity.
    + reflexivity.
    + constructor.
    + vm_compute; reflexivity.
Defined.

Lemma fromJsonObject_size_witness :
  MerginFile.size (MerginFile.fromJsonObject Sample.negative_json) = -5.
Proof.
  apply (fromJsonObject_size Sample.negative_json (-5)); [discriminate |].
  exists (inject_Z (-5)). split; [vm_compute; reflexivity |].
  split; [reflexivity | unfold INT_MIN, INT_MAX; lia].
Defined.

End ReaderSample.

Section ReaderSampleRelease.

#[local] Existing Instance Sample.release_build.

Lemma fromJson_without_files_witness :
  MerginProjectMetadata.files
    <$> Run.returned (MerginProjectMetadata.fromJson (Sample.bytes Sample.nofiles_text))
  = Some [].
Proof.
  rewrite (fromJson_without_files (Sample.bytes Sample.nofiles_text) Sample.nofiles_json).
  - reflexivity.
  - reflexivity.
  - vm_compute; reflexivity.
  - vm_compute; reflexivity.
Defined.

End ReaderSampleRelease.
